(** * Factory-farm violations tracker: the ingestion core

    A shallow embedding of the ingestion pipeline of the repository
    (src/database.py, src/scrapers/fsis_recalls.py,
    src/scrapers/epa_echo.py, src/scrape.py) and the properties of it
    that the specification states.

    Conventions of the embedding:
    - a JSON payload (a Python [dict] of strings) is a [gmap string string];
      [d.get(k, dflt)] is [dict_get d k dflt];
    - a Python [str] is a Rocq [string], one [ascii] per character: text
      is made of the code points below 256, and an [ascii] is the
      character with that code point;
    - a Python [int] is a [Z];
    - a Python [set] of strings is a [gset string];
    - the network is an oracle indexed by the number of requests issued
      so far in the run, and every request, sleep and commit is recorded
      in a trace;
    - [float(...)] is a parameter of the development: no property below
      depends on the value of a float. *)

From Stdlib Require Import ZArith String Ascii List Bool Lia QArith DecimalString.
From stdpp Require Import base gmap strings list sorting.
Import ListNotations.

Open Scope string_scope.
Open Scope Z_scope.
Open Scope list_scope.

(** ** Python values and builtins used by the sources *)

Module Python.

  (** Truthiness of a string: [if s]. *)
Definition truthy (s : string) : bool := negb (String.eqb s EmptyString).

  (** [len(s)]. *)
Definition len (s : string) : Z := Z.of_nat (String.length s).

  (** [s[:n]] for a non-negative [n]. *)
Definition slice_to (n : nat) (s : string) : string := substring 0 n s.

  (** [s[a:b]] for [0 <= a <= b]. *)
Definition slice (a b : nat) (s : string) : string := substring a (b - a) s.

  (** [x or y] on strings. *)
Definition str_or (x y : string) : string := if truthy x then x else y.

  (** [d.get(k, dflt)]. *)
Definition dict_get (d : gmap string string) (k dflt : string) : string :=
    default dflt (d !! k).

Fixpoint map_string (f : ascii -> ascii) (s : string) : string :=
    match s with
    | EmptyString => EmptyString
    | String c s' => String (f c) (map_string f s')
    end.

  (** The code points of a text. *)
Definition code_points (s : string) : list N := map N_of_ascii (list_ascii_of_string s).

  (** [c.upper()] for one character. Besides the letters a-z, the letters
      from U+00E0 to U+00FE (U+00F7, the division sign, is none) have their
      capital 32 places below; the capital of U+00DF is two letters, SS,
      and the capitals of U+00B5 and U+00FF lie beyond U+00FF: the result
      is a list of code points. *)
Definition upper_char (c : ascii) : list N :=
    let n := N_of_ascii c in
    if ((97 <=? n) && (n <=? 122))%N then [(n - 32)%N]
    else if (n =? 181)%N then [924%N]
    else if (n =? 223)%N then [83%N; 83%N]
    else if ((224 <=? n) && (n <=? 254) && negb (n =? 247))%N then [(n - 32)%N]
    else if (n =? 255)%N then [376%N]
    else [n].

  (** [c.lower()] for one character: the letters A-Z and those from U+00C0
      to U+00DE (U+00D7, the multiplication sign, is none) have their small
      letter 32 places above. *)
Definition lower_char (c : ascii) : ascii :=
    let n := N_of_ascii c in
    if (((65 <=? n) && (n <=? 90)) || ((192 <=? n) && (n <=? 222) && negb (n =? 215)))%N
    then ascii_of_N (n + 32) else c.

  (** [s.upper()], as code points, and [s.lower()]. *)
Definition upper (s : string) : list N := flat_map upper_char (list_ascii_of_string s).
Definition lower : string -> string := map_string lower_char.

  (** [sub in s]. *)
Fixpoint contains (sub s : string) : bool :=
    String.prefix sub s ||
    match s with
    | EmptyString => false
    | String _ s' => contains sub s'
    end.

  (** [sub in s] where both are given by their code points. *)
Fixpoint starts_with (sub s : list N) : bool :=
    match sub, s with
    | [], _ => true
    | a :: sub', b :: s' => (a =? b)%N && starts_with sub' s'
    | _ :: _, [] => false
    end.

Fixpoint points_contain (sub s : list N) : bool :=
    starts_with sub s ||
    match s with
    | [] => false
    | _ :: s' => points_contain sub s'
    end.

  (** [filter(None, parts)] where every part is a string or [None]:
      keeps the parts that are present and not empty. *)
Fixpoint filter_none (parts : list (option string)) : list string :=
    match parts with
    | [] => []
    | Some s :: ps => if truthy s then s :: filter_none ps else filter_none ps
    | None :: ps => filter_none ps
    end.

  (** [sep.join(parts)]. *)
Definition join (sep : string) (parts : list string) : string :=
    String.concat sep parts.

  (** [x if c else None]. *)
Definition if_else_none (c : bool) (x : string) : option string :=
    if c then Some x else None.

  (** [str(n)] for an int. *)
Definition str_of_int (n : Z) : string := NilZero.string_of_int (Z.to_int n).

  (** Characters that [int] strips from both ends of its argument: tab to
      carriage return, the space, U+0085 and the no-break space U+00A0. *)
Definition is_space (c : ascii) : bool :=
    let n := nat_of_ascii c in
    (((9 <=? n) && (n <=? 13)) || (n =? 32) || (n =? 133) || (n =? 160))%nat.

Definition digit_of (c : ascii) : option Z :=
    let n := nat_of_ascii c in
    if ((48 <=? n) && (n <=? 57))%nat then Some (Z.of_nat (n - 48)) else None.

Fixpoint lstrip (s : string) : string :=
    match s with
    | String c s' => if is_space c then lstrip s' else s
    | EmptyString => EmptyString
    end.

  (** [rstrip] keeps a character when it is not a space or when something
      that is kept follows it. *)
Fixpoint rstrip (s : string) : string :=
    match s with
    | EmptyString => EmptyString
    | String c s' =>
        match rstrip s' with
        | EmptyString => if is_space c then EmptyString else String c EmptyString
        | r => String c r
        end
    end.

  (** The digits of a decimal literal after its first digit: digits, with
      single underscores allowed between two digits. [after_us] tells that
      the previous character was an underscore. *)
Fixpoint int_digits (acc : Z) (after_us : bool) (s : string) : option Z :=
    match s with
    | EmptyString => if after_us then None else Some acc
    | String c s' =>
        match digit_of c with
        | Some d => int_digits (10 * acc + d) false s'
        | None =>
            if Ascii.eqb c "_" && negb after_us then int_digits acc true s'
            else None
        end
    end.

Definition int_unsigned (s : string) : option Z :=
    match s with
    | EmptyString => None
    | String c s' =>
        match digit_of c with
        | Some d => int_digits d false s'
        | None => None
        end
    end.

  (** The number of digits in a text, and the most that [int] converts
      ([sys.int_info.default_max_str_digits]). *)
Definition count_digits (s : string) : Z :=
    Z.of_nat (length (List.filter (fun c => bool_decide (is_Some (digit_of c)))
                        (list_ascii_of_string s))).

Definition int_max_str_digits : Z := 4300.

  (** [int(s)] for a string, base 10: [None] stands for [ValueError]. *)
Definition int_of_str (s : string) : option Z :=
    if int_max_str_digits <? count_digits s then None
    else
      match rstrip (lstrip s) with
      | String "-" s' => Z.opp <$> int_unsigned s'
      | String "+" s' => int_unsigned s'
      | s' => int_unsigned s'
      end.

  (** What a call returns or raises. The sources distinguish
      [ScraperTimeout], the other subclasses of [Exception], and what is
      only a [BaseException] ([KeyboardInterrupt], [SystemExit]). *)
Inductive exn :=
  | ScraperTimeout
  | ValueError
  | OtherException (name : string)
  | BaseExceptionOnly (name : string).

  (** [isinstance(e, Exception)]. *)
Definition is_Exception (e : exn) : bool :=
    match e with
    | BaseExceptionOnly _ => false
    | _ => true
    end.

Inductive result (A : Type) :=
  | Return (a : A)
  | Raise (e : exn).
Arguments Return {A} a.
Arguments Raise {A} e.

  (** Subclasses of [Exception] that the sources do not name. *)
Definition TypeError : exn := OtherException "TypeError".
Definition AttributeError : exn := OtherException "AttributeError".
Definition OverflowError : exn := OtherException "OverflowError".
Definition OperationalError : exn := OtherException "sqlite3.OperationalError".

  (** A [float] as JSON decoding gives it, by its value. *)
Inductive float :=
  | Finite (value : Q)
  | Infinite
  | NaN.

  (** A value decoded from JSON. Of an array or an object the sources
      read, where this type is used, no more than whether it is empty. *)
Inductive json :=
  | JNull
  | JBool (b : bool)
  | JInt (n : Z)
  | JFloat (x : float)
  | JStr (s : string)
  | JArray (empty : bool)
  | JObject (empty : bool).

  (** [bool(x)]. *)
Definition json_truthy (x : json) : bool :=
    match x with
    | JNull => false
    | JBool b => b
    | JInt n => negb (n =? 0)
    | JFloat (Finite value) => negb (Qnum value =? 0)
    | JFloat _ => true
    | JStr s => truthy s
    | JArray empty | JObject empty => negb empty
    end.

  (** [int(x)]: a float is cut towards zero. *)
Definition int_of_json (x : json) : result Z :=
    match x with
    | JNull | JArray _ | JObject _ => Raise TypeError
    | JBool b => Return (if b then 1 else 0)
    | JInt n => Return n
    | JFloat (Finite value) => Return (Z.quot (Qnum value) (Z.pos (Qden value)))
    | JFloat Infinite => Raise OverflowError
    | JFloat NaN => Raise ValueError
    | JStr s =>
        match int_of_str s with
        | Some n => Return n
        | None => Raise ValueError
        end
    end.

  (** The values a function of the store hands back. *)
Inductive pyval :=
  | PyNone
  | PyBool (b : bool).

End Python.

Import Python.

(** ** src/database.py: the canonical store *)

Module Database.

Section Store.
Context {pyfloat : Type}.

    (** A row of the [violations] table, as the keyword arguments of
        [upsert_violation] give it. Every column is nullable at this level:
        [None] is SQL [NULL]. The [id] column is the position of the row in
        the table (rows are kept in insertion order); [created_at] is wall
        clock time and is not part of the model. *)
Record Violation := mkViolation {
      facility_name : option string;
      location : option string;
      state : option string;
      county : option string;
      latitude : option pyfloat;
      longitude : option pyfloat;
      violation_type : option string;
      date : option string;
      source : option string;
      source_id : option string;
      description : option string;
      severity : option string;
      penalty_amount : option pyfloat;
    }.

    (** The table held by a connection. *)
Definition Conn := list Violation.

    (** [init_db] on a fresh database. *)
Definition init_db : Conn := [].

    (** [NOT NULL] on [facility_name] and [source]. *)
Definition not_null_ok (r : Violation) : bool :=
      bool_decide (is_Some (facility_name r)) && bool_decide (is_Some (source r)).

    (** [UNIQUE(source, source_id)]: two rows collide when both columns are
        equal and not [NULL]; SQLite takes a [NULL] to be distinct from every
        value, another [NULL] included. *)
Definition collides (row r : Violation) : bool :=
      match source row, source r, source_id row, source_id r with
      | Some a, Some b, Some x, Some y => String.eqb a b && String.eqb x y
      | _, _, _, _ => false
      end.

    (** [INSERT OR IGNORE INTO violations ... VALUES ...]: the row is skipped
        when it violates [NOT NULL] or [UNIQUE], appended otherwise. *)
Definition insert_or_ignore (conn : Conn) (r : Violation) : Conn :=
      if not_null_ok r && negb (existsb (fun row => collides row r) conn)
      then conn ++ [r]
      else conn.

    (** [upsert_violation(conn, **kwargs)]: executes the statement and falls
        off the end of the function, so the call evaluates to [None]. *)
Definition upsert_violation (conn : Conn) (kwargs : Violation) : pyval * Conn :=
      (PyNone, insert_or_ignore conn kwargs).

    (** The natural key of a row, as the pair of its two columns. *)
Definition key (r : Violation) : option string * option string :=
      (source r, source_id r).

End Store.

Arguments Violation : clear implicits.
Arguments Conn : clear implicits.

End Database.

Import Database.

(** ** src/scrapers/fsis_recalls.py: the paginated recall source *)

Module FsisRecalls.

(** A raw openFDA result object. *)
Abbreviation Recall := (gmap string string).

(** The double-quote character and the two shapes of search term. *)
Definition dquote : string := String (ascii_of_nat 34) EmptyString.

Definition product_description (term : string) : string :=
  "product_description:" +:+ dquote +:+ term +:+ dquote.

Definition reason_for_recall (term : string) : string :=
  "reason_for_recall:" +:+ dquote +:+ term +:+ dquote.

Definition SEARCH_QUERIES : list string :=
  [ product_description "chicken";
    product_description "beef";
    product_description "pork";
    product_description "turkey";
    product_description "poultry";
    product_description "meat";
    product_description "sausage";
    product_description "ground beef";
    reason_for_recall "FSIS";
    reason_for_recall "salmonella";
    reason_for_recall "E. coli";
    reason_for_recall "listeria" ].

Definition CLASS_SEVERITY : gmap string string :=
  {[ "Class I" := "High"; "Class II" := "Medium"; "Class III" := "Low" ]}.

(** What one GET on the enforcement endpoint comes to: an HTTP error status
    ([raise_for_status]), any other failure (transport, JSON decoding), or
    a JSON body with its [results] list (empty when the key is missing). *)
Inductive response :=
| HTTPStatusError (status_code : Z)
| Failure
| Json (results : list Recall).

Inductive event {pyfloat : Type} :=
| Get (search : string) (limit skip : Z)
| Sleep (seconds : Q)
| Execute (kwargs : Violation pyfloat)
| Commit
| Close.
Arguments event : clear implicits.

Section Scraper.
Context {pyfloat : Type}.

(** The server: the answer to the [n]-th request of the run. *)
Variable server : nat -> string -> Z -> Z -> response.

(** The state a run threads: the connection, the set of recall numbers
    seen, the counter, the trace of effects and the number of requests
    issued. *)
Record world := mkWorld {
  conn : Conn pyfloat;
  seen_ids : gset string;
  total_inserted : nat;
  trace : list (event pyfloat);
  requests : nat;
}.

Definition emit (e : event pyfloat) (st : world) : world :=
  mkWorld (conn st) (seen_ids st) (total_inserted st) (trace st ++ [e]) (requests st).

Definition sleep (seconds : Q) (st : world) : world := emit (Sleep seconds) st.

(** [fetch_recalls(search_query, limit, skip)]: every failure is logged and
    turned into the empty list. *)
Definition fetch_recalls (search_query : string) (limit skip : Z) (st : world)
  : list Recall  * world :=
  let limit' := Z.min limit 100 in
  let st' := mkWorld (conn st) (seen_ids st) (total_inserted st)
                     (trace st ++ [Get search_query limit' skip]) (S (requests st)) in
  match server (requests st) search_query limit' skip with
  | Json results => (results, st')
  | HTTPStatusError _ => ([], st')
  | Failure => ([], st')
  end.

(** [recall_to_violation(recall)]. *)
Definition recall_to_violation (recall : Recall) : Violation pyfloat :=
  let firm := dict_get recall "recalling_firm" "Unknown" in
  let city := dict_get recall "city" EmptyString in
  let state := dict_get recall "state" EmptyString in
  let classification := dict_get recall "classification" EmptyString in
  let reason := dict_get recall "reason_for_recall" EmptyString in
  let product := dict_get recall "product_description" EmptyString in
  let quantity := dict_get recall "product_quantity" EmptyString in
  let recall_number := dict_get recall "recall_number" EmptyString in
  let init_date := dict_get recall "recall_initiation_date" EmptyString in
  let distribution := dict_get recall "distribution_pattern" EmptyString in
  let voluntary := dict_get recall "voluntary_mandated" EmptyString in
  let date :=
    if truthy init_date && (len init_date =? 8)
    then Some (slice_to 4 init_date +:+ "-" +:+ slice 4 6 init_date +:+ "-"
               +:+ slice 6 8 init_date)
    else None in
  let location := join ", " (filter_none [Some city; Some state]) in
  let severity := default "Medium" (CLASS_SEVERITY !! classification) in
  let desc_parts :=
    [ if_else_none (truthy product) ("Product: " +:+ product);
      if_else_none (truthy reason) ("Reason: " +:+ reason);
      if_else_none (truthy quantity) ("Quantity: " +:+ quantity);
      if_else_none (truthy distribution) ("Distribution: " +:+ distribution);
      if_else_none (truthy voluntary) ("Type: " +:+ voluntary);
      if_else_none (truthy classification) ("Classification: " +:+ classification) ] in
  let description := join ". " (filter_none desc_parts) in
  let description :=
    if 2000 <? len description then slice_to 1997 description +:+ "..."
    else description in
  {| facility_name := Some firm;
     location := Some location;
     state := if len state =? 2 then Some state else None;
     county := None;
     latitude := None;
     longitude := None;
     violation_type := Some "Food Safety Recall - Meat/Poultry";
     date := date;
     source := Some "USDA FSIS (via openFDA)";
     source_id := Some ("FDA-" +:+ recall_number);
     description := Some description;
     severity := Some severity;
     penalty_amount := None |}.

(** The body of [for recall in results]. The store raises nothing on a
    record with all its columns bound, so the counter is incremented after
    every call. *)
Definition process_recall (st : world) (recall : Recall) : world :=
  let recall_num := dict_get recall "recall_number" EmptyString in
  if bool_decide (recall_num ∈ seen_ids st) then st
  else
    let violation := recall_to_violation recall in
    let '(_, conn') := upsert_violation (conn st) violation in
    mkWorld conn' ({[recall_num]} ∪ seen_ids st) (S (total_inserted st))
            (trace st ++ [Execute violation]) (requests st).

(** [while skip < max_per_query: ...], with the number of iterations left:
    [None] when they run out before the loop ends. *)
Fixpoint paginate (fuel : nat) (query : string) (max_per_query skip : Z) (st : world)
  : option world :=
  if skip <? max_per_query then
    match fuel with
    | O => None
    | S fuel' =>
        let '(results, st1) := fetch_recalls query 100 skip st in
        match results with
        | [] => Some st1
        | _ :: _ =>
            let st2 := fold_left process_recall results st1 in
            let skip' := skip + Z.of_nat (length results) in
            if Z.of_nat (length results) <? 100 then Some st2
            else paginate fuel' query max_per_query skip' (sleep 0.3 st2)
        end
    end
  else Some st.

(** The body of [for query in SEARCH_QUERIES]. A page that is not the last
    one has at least 100 results, so [max_per_query] iterations are enough. *)
Definition scrape_query (max_per_query : Z) (st : option world) (query : string)
  : option world :=
  st0 ← st;
  st1 ← paginate (Z.to_nat max_per_query) query max_per_query 0 st0;
  Some (sleep 0.5 (emit Commit st1)).

(** [scrape_fsis_recalls(max_per_query)] on a connection: the count it
    returns and the final state. *)
Definition scrape_fsis_recalls (max_per_query : Z) (db : Conn pyfloat)
  : option (nat * world) :=
  st ← fold_left (scrape_query max_per_query) SEARCH_QUERIES
         (Some (mkWorld db ∅ 0%nat [] 0%nat));
  let st' := emit Close st in
  Some (total_inserted st', st').

End Scraper.

End FsisRecalls.

(** ** src/scrapers/epa_echo.py: the submit/poll/paginate facility source *)

Module EpaEcho.

(** A raw ECHO facility object. *)
Abbreviation Facility := (gmap string string).

Definition CAFO_SIC_CODES : list string := ["0211"; "0213"; "0251"; "0252"; "0253"].

Definition SIC_NAMES : gmap string string :=
  {[ "0211" := "Beef Cattle Feedlots";
     "0213" := "Hog Operations";
     "0251" := "Broiler/Fryer Chickens";
     "0252" := "Egg Production";
     "0253" := "Turkey Operations" ]}.

(** The [Results] object of a response, with the four keys the fetcher
    reads; a missing key is [None] (the empty list for [Facilities]). The
    values under the first three keys are whatever JSON holds there; the
    facilities are objects of strings. *)
Record Results := mkResults {
  Message : option json;
  QueryRows : option json;
  QueryID : option json;
  Facilities : list Facility;
}.

(** [data.get("Results", {})] when the key is missing. *)
Definition no_results : Results := mkResults None None None [].

(** The two endpoints, with the parameters that vary. *)
Inductive request :=
| get_facilities (p_sic : string)
| get_qid (qid : json) (responseset : Z).

(** What one GET comes to: an exception (transport, HTTP status, JSON
    decoding), or a JSON body. A body that is no object has no [get], and
    neither has a [Results] that is no object: both raise [AttributeError]
    where the fetcher reads them. Of an object whose [Results] is one, or
    is missing, [Json] carries what [data.get("Results", {})] gives. *)
Inductive response :=
| Failure
| NotAnObject
| ResultsNotAnObject
| Json (results : Results).

Inductive event {pyfloat : Type} :=
| Get (r : request)
| Sleep (seconds : Q)
| Execute (kwargs : Violation pyfloat)
| Commit
| Close.
Arguments event : clear implicits.

(** [results.get("Message") == "Working"]. *)
Definition is_working (results : Results) : bool :=
  match Message results with
  | Some (JStr message) => String.eqb message "Working"
  | _ => false
  end.

(** [l[:n]] for any int [n]. *)
Definition list_slice_to {A : Type} (n : Z) (l : list A) : list A :=
  if 0 <=? n then firstn (Z.to_nat n) l
  else firstn (length l - Z.to_nat (- n)) l.

(** [s.replace(c, EmptyString)] for a one-character [c]. *)
Fixpoint remove_char (c : ascii) (s : string) : string :=
  match s with
  | EmptyString => EmptyString
  | String a s' => if Ascii.eqb a c then remove_char c s' else String a (remove_char c s')
  end.

Section Scraper.
Context {pyfloat : Type}.

(** [float(s)] for a string: [None] stands for [ValueError]. *)
Variable float_of_str : string -> option pyfloat.

(** The server: the answer to the [n]-th request of the run. *)
Variable server : nat -> request -> response.

Record world := mkWorld {
  conn : Conn pyfloat;
  total_inserted : nat;
  trace : list (event pyfloat);
  requests : nat;
}.

Definition emit (e : event pyfloat) (w : world) : world :=
  mkWorld (conn w) (total_inserted w) (trace w ++ [e]) (requests w).

Definition sleep (seconds : Q) (w : world) : world := emit (Sleep seconds) w.

(** [httpx.get(...)], [raise_for_status()] and [json()] in one step. *)
Definition http_get (r : request) (w : world) : response * world :=
  (server (requests w) r,
   mkWorld (conn w) (total_inserted w) (trace w ++ [Get r]) (S (requests w))).

(** [while results.get("Message") == "Working" and poll_attempts < 12],
    by the number of attempts left. An attempt that raises inside the
    [try] (a failed request, a body that is no object) keeps the previous
    [results] and goes round again; a [Results] that is no object is
    assigned, and the test of the loop raises on it. *)
Fixpoint poll (attempts_left : nat) (sic_code : string) (results : Results) (w : world)
  : result Results * world :=
  if is_working results then
    match attempts_left with
    | O => (Return results, w)
    | S n =>
        let '(resp, w1) := http_get (get_facilities sic_code) (sleep 5 w) in
        match resp with
        | Json results' => poll n sic_code results' w1
        | ResultsNotAnObject => (Raise AttributeError, w1)
        | Failure | NotAnObject => poll n sic_code results w1
        end
    end
  else (Return results, w).

(** [for attempt in range(6)] for one page, by the number of attempts
    left. Whatever is raised inside the [try], by the request or by reading
    a body or a [Results] that is no object, costs the attempt and a wait
    of 3 seconds. *)
Fixpoint fetch_page (attempts_left : nat) (qid : json) (page : Z)
    (all_facilities : list Facility) (w : world) : list Facility * world :=
  match attempts_left with
  | O => (all_facilities, w)
  | S n =>
      let '(resp, w1) := http_get (get_qid qid page) w in
      match resp with
      | Failure | NotAnObject | ResultsNotAnObject =>
          fetch_page n qid page all_facilities (sleep 3 w1)
      | Json page_results =>
          if is_working page_results
          then fetch_page n qid page all_facilities (sleep 5 w1)
          else (all_facilities ++ Facilities page_results, w1)
      end
  end.

(** The body of [for page in range(1, pages_to_fetch + 1)]. *)
Definition fetch_pages_step (qid : json) (acc : list Facility * world) (page : Z)
  : list Facility * world :=
  let '(all_facilities, w) := acc in
  let '(all_facilities', w1) := fetch_page 6 qid page all_facilities w in
  (all_facilities', sleep 1 w1).

(** [range(1, n + 1)]. *)
Definition range_from_1 (n : Z) : list Z :=
  map (fun i => Z.of_nat i) (seq 1 (Z.to_nat n)).

(** [int(results.get("QueryRows", 0))]. *)
Definition query_rows (results : Results) : result Z :=
  match QueryRows results with
  | None => Return 0
  | Some rows => int_of_json rows
  end.

(** [results.get("QueryID")] and [not qid]. *)
Definition query_id (results : Results) : json := default JNull (QueryID results).

Definition no_qid (results : Results) : bool := negb (json_truthy (query_id results)).

(** [fetch_facilities_for_sic(sic_code, max_facilities)]. The first
    request is the only one whose failure is caught around it; its body is
    read after the [try], and so are the polled results. *)
Definition fetch_facilities_for_sic (sic_code : string) (max_facilities : Z) (w : world)
  : result (list Facility) * world :=
  let '(resp, w1) := http_get (get_facilities sic_code) w in
  match resp with
  | Failure => (Return [], w1)
  | NotAnObject | ResultsNotAnObject => (Raise AttributeError, w1)
  | Json results0 =>
      match poll 12 sic_code results0 w1 with
      | (Raise e, w2) => (Raise e, w2)
      | (Return results, w2) =>
          match query_rows results with
          | Raise e => (Raise e, w2)
          | Return total_rows =>
              if (total_rows =? 0) || no_qid results then (Return [], w2)
              else
                let qid := query_id results in
                let pages_to_fetch := (Z.min total_rows max_facilities + 99) / 100 in
                let '(all_facilities, w3) :=
                  fold_left (fetch_pages_step qid) (range_from_1 pages_to_fetch) ([], w2) in
                (Return (list_slice_to max_facilities all_facilities), w3)
          end
      end
  end.

(** [float(x) if x else None], [None] when [float] raises. *)
Definition float_if (x : option string) : option (option pyfloat) :=
  match x with
  | None => Some None
  | Some s => if truthy s then Some <$> float_of_str s else Some None
  end.

(** [facility_to_violation(facility, sic_code)]. *)
Definition facility_to_violation (facility : Facility) (sic_code : string)
  : option (Violation pyfloat) :=
  let name := dict_get facility "CWPName" "Unknown" in
  let source_id := dict_get facility "SourceID" EmptyString in
  let street := dict_get facility "CWPStreet" EmptyString in
  let city := dict_get facility "CWPCity" EmptyString in
  let state := dict_get facility "CWPState" EmptyString in
  let county := dict_get facility "CWPCounty" EmptyString in
  let lat := facility !! "FacLat" in
  let lon := facility !! "FacLong" in
  let compliance_status := dict_get facility "CWPComplianceStatus" EmptyString in
  let snc_status := dict_get facility "CWPSNCStatus" EmptyString in
  let qtrs_nc := dict_get facility "CWPQtrsWithNC" "0" in
  let permit_status := dict_get facility "CWPPermitStatusDesc" EmptyString in
  let last_inspection := dict_get facility "CWPDateLastInspection" EmptyString in
  let last_penalty_date := dict_get facility "CWPDateLastPenalty" EmptyString in
  let total_penalties := dict_get facility "CWPTotalPenalties" EmptyString in
  let formal_ea_count := dict_get facility "CWPFormalEaCount" "0" in
  let location := join ", " (filter_none [Some street; Some city; Some state]) in
  let '(lat, lon) :=
    match float_if lat with
    | None => (None, None)
    | Some lat' =>
        match float_if lon with
        | None => (None, None)
        | Some lon' => (lat', lon')
        end
    end in
  let severity :=
    if truthy snc_status && points_contain (code_points "S") (upper snc_status) then "High"
    else if truthy compliance_status && contains "violation" (lower compliance_status)
         then "Medium"
         else "Low" in
  let qtrs := if truthy qtrs_nc then default 0 (int_of_str qtrs_nc) else 0 in
  if (qtrs =? 0) && String.eqb severity "Low" && negb (truthy last_penalty_date)
  then None
  else
    let desc_parts :=
      [ Some ("CAFO Type: " +:+ default sic_code (SIC_NAMES !! sic_code));
        if_else_none (truthy permit_status) ("Permit Status: " +:+ permit_status);
        if_else_none (truthy compliance_status) ("Compliance: " +:+ compliance_status);
        if_else_none (0 <? qtrs) ("Quarters in Non-Compliance: " +:+ str_of_int qtrs);
        if_else_none (truthy formal_ea_count && negb (String.eqb formal_ea_count "0"))
                     ("Formal Enforcement Actions: " +:+ formal_ea_count) ] in
    let description := join ". " (filter_none desc_parts) in
    let penalty :=
      if truthy total_penalties
      then float_of_str (remove_char "," (remove_char "$" total_penalties))
      else None in
    Some {| facility_name := Some name;
            location := Some location;
            state := Some state;
            county := Some county;
            latitude := lat;
            longitude := lon;
            violation_type := Some "Clean Water Act - CAFO";
            date := if truthy last_penalty_date then Some last_penalty_date
                    else if truthy last_inspection then Some last_inspection
                    else None;
            source := Some "EPA ECHO";
            source_id := Some ("ECHO-CWA-" +:+ source_id);
            description := Some description;
            severity := Some severity;
            penalty_amount := penalty |}.

(** The body of [for facility in facilities]. *)
Definition process_facility (sic_code : string) (w : world) (facility : Facility) : world :=
  match facility_to_violation facility sic_code with
  | None => w
  | Some v =>
      let '(_, conn') := upsert_violation (conn w) v in
      mkWorld conn' (S (total_inserted w)) (trace w ++ [Execute v]) (requests w)
  end.

(** The body of [for sic_code in CAFO_SIC_CODES]; an exception of the
    fetcher leaves the loop. *)
Definition scrape_sic (max_per_sic : Z) (acc : result unit * world) (sic_code : string)
  : result unit * world :=
  match acc with
  | (Raise e, w) => (Raise e, w)
  | (Return _, w) =>
      match fetch_facilities_for_sic sic_code max_per_sic w with
      | (Raise e, w1) => (Raise e, w1)
      | (Return facilities, w1) =>
          let w2 := fold_left (process_facility sic_code) facilities w1 in
          (Return tt, sleep 1 (emit Commit w2))
      end
  end.

(** [scrape_epa_echo(max_per_sic)] on a connection. *)
Definition scrape_epa_echo (max_per_sic : Z) (db : Conn pyfloat) : result nat * world :=
  match fold_left (scrape_sic max_per_sic) CAFO_SIC_CODES
                  (Return tt, mkWorld db 0%nat [] 0%nat) with
  | (Raise e, w) => (Raise e, w)
  | (Return _, w) => let w' := emit Close w in (Return (total_inserted w'), w')
  end.

End Scraper.

End EpaEcho.

(** ** src/scrape.py: the orchestrator *)

Module Scrape.

(** What [main] does besides calling the three loaders: log lines and the
    calls on the alarm. *)
Inductive action :=
| Info (msg : string)
| Warning (msg : string)
| SetAlarmHandler
| Alarm (seconds : Z).

Section Main.
(** The world the loaders act on: the database, the network, the clock. *)
Context {World : Type}.

(** Modelled from the spec: the seed loader ([scrapers/seed_data.py] is
    not among the sources). It always succeeds and hands back the number
    of records it loaded. *)
Variable seed_database : World -> nat * World.

(** The two network-backed scrapers, as [main] sees them: a count, or an
    exception raised anywhere inside the call (the alarm's
    [ScraperTimeout] included). *)
Variable scrape_fsis_recalls : Z -> World -> result nat * World.
Variable scrape_epa_echo : Z -> World -> result nat * World.

(** The local state of [main]. *)
Record frame := mkFrame {
  total : nat;
  log : list action;
  world : World;
}.

Definition logged (a : action) (f : frame) : frame :=
  mkFrame (total f) (log f ++ [a]) (world f).

Definition count_line (label : string) (count : nat) : action :=
  Info (label +:+ ": " +:+ str_of_int (Z.of_nat count) +:+ " records").

(** Step 1: the seed loader, outside any [try]. *)
Definition step_seed (f : frame) : frame :=
  let f := logged (Info "=== Seeding database with documented violations ===") f in
  let '(count, w) := seed_database (world f) in
  logged (count_line "Seed data" count) (mkFrame (total f + count) (log f) w).

(** Step 2: [try: ... except Exception as e: ...]. Anything that is not an
    [Exception] leaves [main]. *)
Definition step_fsis (f : frame) : result frame :=
  let f := logged (Info "=== Scraping FSIS/openFDA meat & poultry recalls ===") f in
  match scrape_fsis_recalls 100 (world f) with
  | (Return count, w) =>
      Return (logged (count_line "FSIS Recalls" count)
                     (mkFrame (total f + count) (log f) w))
  | (Raise e, w) =>
      if is_Exception e
      then Return (logged (Warning "FSIS recall scraper failed (seed data still available)")
                          (mkFrame (total f) (log f) w))
      else Raise e
  end.

(** Step 3: [try: ... except ScraperTimeout: ... except Exception as e: ...
    finally: signal.alarm(0)]. *)
Definition step_epa (f : frame) : result frame :=
  let f := logged (Info "=== Scraping EPA ECHO CAFO violations (90s timeout) ===") f in
  let f := logged (Alarm 90) (logged SetAlarmHandler f) in
  match scrape_epa_echo 100 (world f) with
  | (Return count, w) =>
      let f := logged (count_line "EPA ECHO" count) (mkFrame (total f + count) (log f) w) in
      Return (logged (Alarm 0) (logged (Alarm 0) f))
  | (Raise ScraperTimeout, w) =>
      let f := mkFrame (total f) (log f) w in
      Return (logged (Alarm 0)
                (logged (Warning "EPA ECHO scraper timed out after 90s (seed data still available)") f))
  | (Raise e, w) =>
      let f := mkFrame (total f) (log f) w in
      if is_Exception e
      then Return (logged (Alarm 0)
                     (logged (Warning "EPA ECHO scraper failed (seed data still available)") f))
      else Raise e
  end.

Definition total_line (n : nat) : action :=
  Info ("=== Complete. Total: " +:+ str_of_int (Z.of_nat n) +:+ " violation records ===").

(** [main()]: the frame it ends in, whose last log line reports the total,
    or the exception that leaves it. *)
Definition main (w : World) : result frame :=
  let f := step_seed (mkFrame 0%nat [] w) in
  match step_fsis f with
  | Raise e => Raise e
  | Return f =>
      match step_epa f with
      | Raise e => Raise e
      | Return f => Return (logged (total_line (total f)) f)
      end
  end.

End Main.

End Scrape.

(** ** src/app.py: the read side *)

Module App.

(** The value of an SQL condition: true, false or [NULL]. *)
Abbreviation sql_bool := (option bool).

Definition sql_or (a b : sql_bool) : sql_bool :=
  match a, b with
  | Some true, _ => Some true
  | _, Some true => Some true
  | Some false, Some false => Some false
  | _, _ => None
  end.

(** SQLite folds the case of the letters A-Z and of no other character. *)
Definition lower_ascii (c : ascii) : ascii :=
  let n := nat_of_ascii c in
  if ((65 <=? n) && (n <=? 90))%nat then ascii_of_nat (n + 32) else c.


(** The match of a text against a [LIKE] pattern, as SQLite does it by
    default: [%] stands for any run of characters, [_] for any one
    character, and ASCII letters match whatever their case. *)
Fixpoint pattern_compare (pattern s : string) : bool :=
  match pattern with
  | EmptyString => match s with EmptyString => true | String _ _ => false end
  | String c p =>
      if Ascii.eqb c "%" then
        (fix skip (s : string) : bool :=
           pattern_compare p s || match s with
                                  | EmptyString => false
                                  | String _ s' => skip s'
                                  end) s
      else
        match s with
        | EmptyString => false
        | String d s' =>
            (Ascii.eqb c "_" || Ascii.eqb (lower_ascii c) (lower_ascii d))
            && pattern_compare p s'
        end
  end.

(** The text as [LIKE] reads it, a C string: what comes before the first
    NUL. *)
Fixpoint c_string (s : string) : string :=
  match s with
  | EmptyString => EmptyString
  | String c s' => if Ascii.eqb c Ascii.zero then EmptyString else String c (c_string s')
  end.

(** The number of bytes of the text in UTF-8: one for a code point below
    128, two for the others. *)
Fixpoint utf8_length (s : string) : Z :=
  match s with
  | EmptyString => 0
  | String c s' => (if (nat_of_ascii c <? 128)%nat then 1 else 2) + utf8_length s'
  end.

(** [SQLITE_MAX_LIKE_PATTERN_LENGTH], in bytes. *)
Definition max_like_pattern_length : Z := 50000.

(** [column LIKE ?] on a nullable text column. A pattern over the limit
    is an error, whatever the column holds. *)
Definition sql_like (column : option string) (pattern : string) : result sql_bool :=
  if max_like_pattern_length <? utf8_length pattern then Raise OperationalError
  else Return ((fun x => pattern_compare (c_string pattern) (c_string x)) <$> column).

(** [a OR b], the second operand being evaluated when the first is not
    true. *)
Definition sql_or_else (a b : result sql_bool) : result sql_bool :=
  match a with
  | Raise e => Raise e
  | Return (Some true) => Return (Some true)
  | Return x =>
      match b with
      | Raise e => Raise e
      | Return y => Return (sql_or x y)
      end
  end.

(** [column = ?], [column >= ?] and [column <= ?] on a nullable text
    column, text being compared byte by byte. The parameter of [=] is given
    by its code points. *)
Definition sql_eq (column : option string) (value : list N) : result sql_bool :=
  Return ((fun x => bool_decide (code_points x = value)) <$> column).

Definition sql_ge (column : option string) (value : string) : result sql_bool :=
  Return ((fun x => String.leb value x) <$> column).

Definition sql_le (column : option string) (value : string) : result sql_bool :=
  Return ((fun x => String.leb x value) <$> column).

(** The order of text under [ORDER BY column]: byte by byte. *)
Definition text_le (a b : string) : Prop := String.leb a b = true.

#[global] Instance text_le_dec (a b : string) : Decision (text_le a b).
Proof. unfold text_le. apply _. Defined.

(** [if arg:] on an optional query parameter: the parameter when it is
    given and not empty. *)
Definition given (arg : option string) : option string :=
  match arg with
  | Some s => if truthy s then Some s else None
  | None => None
  end.

(** The two statements of [list_violations]. *)
Inductive statement :=
| CountRows
| FetchPage.

Section Queries.
Context {pyfloat : Type}.

(** A stored row with its rank in insertion order, which stands for the
    [id] column: ids grow with every insertion. *)
Definition Row : Type := nat * Violation pyfloat.

(** Where SQLite evaluates the conditions of a statement: [visits q row]
    tells whether statement [q] evaluates on [row] that one of its
    conditions which is in error, if there is one. This depends on the plan
    SQLite chooses (an index on another column can keep it from looking at
    a row at all), and the sources do not fix it. *)
Variable visits : statement -> Row -> bool.

Definition rows_of (conn : Conn pyfloat) : list Row := imap (fun i r => (i, r)) conn.

(** The condition a parameter adds when it is given. *)
Definition condition (arg : option string)
    (c : string -> Violation pyfloat -> result sql_bool)
  : list (Violation pyfloat -> result sql_bool) :=
  match given arg with
  | Some s => [c s]
  | None => []
  end.

(** The list [conditions] that [list_violations] builds, in its order. *)
Definition conditions (search state source severity violation_type date_from date_to
                       : option string) : list (Violation pyfloat -> result sql_bool) :=
  condition search (fun s r =>
      sql_or_else (sql_like (facility_name r) ("%" +:+ s +:+ "%"))
                  (sql_like (description r) ("%" +:+ s +:+ "%")))
  ++ condition state (fun s r => sql_eq (Database.state r) (upper s))
  ++ condition source (fun s r => sql_like (Database.source r) ("%" +:+ s +:+ "%"))
  ++ condition severity (fun s r => sql_eq (Database.severity r) (code_points s))
  ++ condition violation_type (fun s r =>
        sql_like (Database.violation_type r) ("%" +:+ s +:+ "%"))
  ++ condition date_from (fun s r => sql_ge (date r) s)
  ++ condition date_to (fun s r => sql_le (date r) s).

(** [WHERE c1 AND c2 AND ...], or [WHERE 1=1] for no condition: the row
    is selected when every condition is true. *)
Definition selected (where_clause : list (Violation pyfloat -> result sql_bool)) (row : Row)
  : bool :=
  forallb (fun c => match c (snd row) with
                    | Return (Some true) => true
                    | _ => false
                    end) where_clause.

(** A condition of the clause is in error on the row. *)
Definition in_error (where_clause : list (Violation pyfloat -> result sql_bool)) (row : Row)
  : bool :=
  existsb (fun c => match c (snd row) with
                    | Raise _ => true
                    | Return _ => false
                    end) where_clause.

(** The statement fails: it evaluates a condition in error on some row. *)
Definition fails (q : statement) (where_clause : list (Violation pyfloat -> result sql_bool))
    (conn : Conn pyfloat) : bool :=
  existsb (fun row => visits q row && in_error where_clause row) (rows_of conn).

(** [ORDER BY date DESC NULLS LAST, id DESC]: whether a row comes before
    another one, or is the same row. *)
Definition comes_before_b (a b : Row) : bool :=
  match date (snd a), date (snd b) with
  | Some x, Some y => if String.eqb x y then (fst b <=? fst a)%nat else String.ltb y x
  | Some _, None => true
  | None, Some _ => false
  | None, None => (fst b <=? fst a)%nat
  end.

Definition comes_before (a b : Row) : Prop := comes_before_b a b = true.

#[global] Instance comes_before_dec (a b : Row) : Decision (comes_before a b).
Proof. unfold comes_before. apply _. Defined.

(** What the endpoint answers. *)
Record Page := mkPage {
  total : Z;
  page : Z;
  per_page : Z;
  pages : Z;
  data : list Row;
}.

(** The rows a query selects, in the order of the [SELECT]. *)
Definition select_ordered (conn : Conn pyfloat)
    (where_clause : list (Violation pyfloat -> result sql_bool)) : list Row :=
  merge_sort comes_before (List.filter (selected where_clause) (rows_of conn)).

(** [list_violations(search, state, source, severity, violation_type,
    date_from, date_to, page, per_page)] on the arguments as the framework
    hands them over. [None] is its refusal of a [page] below 1 or a
    [per_page] outside 1..500, in which case the function is not run. The
    count is taken first; the offset of the page is then bound as a 64-bit
    integer, which raises [OverflowError] from 2^63 on. *)
Definition list_violations (conn : Conn pyfloat)
    (search state source severity violation_type date_from date_to : option string)
    (page per_page : Z) : option (result Page) :=
  if (1 <=? page) && (1 <=? per_page) && (per_page <=? 500) then
    let where_clause := conditions search state source severity violation_type date_from date_to in
    if fails CountRows where_clause conn then Some (Raise OperationalError)
    else
      let total := Z.of_nat (length (List.filter (selected where_clause) (rows_of conn))) in
      let offset := (page - 1) * per_page in
      if 2 ^ 63 <=? offset then Some (Raise OverflowError)
      else if fails FetchPage where_clause conn then Some (Raise OperationalError)
      else
        let rows := take (Z.to_nat per_page)
                         (drop (Z.to_nat offset) (select_ordered conn where_clause)) in
        Some (Return (mkPage total page per_page ((total + per_page - 1) / per_page) rows))
  else None.

(** [get_states()]: the states that occur, in ascending order, each with
    the number of rows that carry it. *)
Definition get_states (conn : Conn pyfloat) : list (string * nat) :=
  let states := omap Database.state conn in
  map (fun s => (s, length (List.filter (String.eqb s) states)))
      (merge_sort text_le (remove_dups states)).

End Queries.

End App.

(** * Properties *)

(** ** Predicates and sample inputs used by the statements *)

Module Spec.

Section Store.
Context {pyfloat : Type}.


(** The record is stored already, or can never be: upserting it changes
    nothing. *)
Definition absorbed (t : Conn pyfloat) (r : Violation pyfloat) : Prop :=
  insert_or_ignore t r = t.

(** A run of upserts, in order. *)
Definition upsert_all (t : Conn pyfloat) (rs : list (Violation pyfloat)) : Conn pyfloat :=
  fold_left insert_or_ignore rs t.

End Store.


(** The same record with an identifier. *)
Definition identified_row : Violation unit :=
  {| facility_name := Some "Example Farm";
     location := None; state := Some "IA"; county := None;
     latitude := None; longitude := None;
     violation_type := Some "Clean Water Act - CAFO";
     date := Some "2020-01-01";
     source := Some "Curated";
     source_id := Some "CUR-1";
     description := None; severity := Some "High"; penalty_amount := None |}.

(** ISO form [YYYY-MM-DD]: ten characters, digits but for a [-] in the
    fifth and eighth places. *)
Definition is_digit (c : ascii) : bool := bool_decide (is_Some (digit_of c)).

Definition is_iso_date (s : string) : bool :=
  match list_ascii_of_string s with
  | [y1; y2; y3; y4; s1; m1; m2; s2; d1; d2] =>
      forallb is_digit [y1; y2; y3; y4; m1; m2; d1; d2]
      && Ascii.eqb s1 "-" && Ascii.eqb s2 "-"
  | _ => false
  end.

Definition all_digits (s : string) : bool :=
  forallb is_digit (list_ascii_of_string s).

(** The description of a recall as assembled, before any truncation. *)
Definition assembled_description (recall : gmap string string) : string :=
  let classification := dict_get recall "classification" EmptyString in
  let reason := dict_get recall "reason_for_recall" EmptyString in
  let product := dict_get recall "product_description" EmptyString in
  let quantity := dict_get recall "product_quantity" EmptyString in
  let distribution := dict_get recall "distribution_pattern" EmptyString in
  let voluntary := dict_get recall "voluntary_mandated" EmptyString in
  join ". " (filter_none
    [ if_else_none (truthy product) ("Product: " +:+ product);
      if_else_none (truthy reason) ("Reason: " +:+ reason);
      if_else_none (truthy quantity) ("Quantity: " +:+ quantity);
      if_else_none (truthy distribution) ("Distribution: " +:+ distribution);
      if_else_none (truthy voluntary) ("Type: " +:+ voluntary);
      if_else_none (truthy classification) ("Classification: " +:+ classification) ]).

(** The compliance signals of a raw facility, as the normalizer reads
    them. *)
Definition quarters_in_noncompliance (facility : gmap string string) : Z :=
  let qtrs_nc := dict_get facility "CWPQtrsWithNC" "0" in
  if truthy qtrs_nc then default 0 (int_of_str qtrs_nc) else 0.

Definition snc_flag (facility : gmap string string) : bool :=
  let snc_status := dict_get facility "CWPSNCStatus" EmptyString in
  truthy snc_status && points_contain (code_points "S") (upper snc_status).

Definition violation_in_status (facility : gmap string string) : bool :=
  let compliance_status := dict_get facility "CWPComplianceStatus" EmptyString in
  truthy compliance_status && contains "violation" (lower compliance_status).

Definition has_last_penalty_date (facility : gmap string string) : bool :=
  truthy (dict_get facility "CWPDateLastPenalty" EmptyString).

Fixpoint repeat_string (s : string) (n : nat) : string :=
  match n with
  | O => EmptyString
  | S n' => s +:+ repeat_string s n'
  end.

(** A facility in significant noncompliance whose last penalty is dated
    the way ECHO writes dates. *)
Definition penalised_facility : gmap string string :=
  {[ "CWPName" := "Example Feedlot";
     "SourceID" := "IA0000001";
     "CWPSNCStatus" := "S";
     "CWPDateLastPenalty" := "06/15/2023" ]}.

(** A facility in significant noncompliance with a permit status text of
    2001 characters. *)
Definition verbose_facility : gmap string string :=
  {[ "CWPName" := "Example Feedlot";
     "SourceID" := "IA0000002";
     "CWPSNCStatus" := "S";
     "CWPPermitStatusDesc" := repeat_string "x" 2001 ]}.

(** A facility with no sign of any issue, and the same one with a dated
    penalty. *)
Definition quiet_facility : gmap string string :=
  {[ "CWPName" := "Example Feedlot"; "SourceID" := "IA0000003";
     "CWPQtrsWithNC" := "0"; "CWPComplianceStatus" := "In Compliance" ]}.

Definition quiet_penalised_facility : gmap string string :=
  <[ "CWPDateLastPenalty" := "01/02/2020" ]> quiet_facility.

(** No float is ever parsed. *)
Definition no_float (s : string) : option unit := None.

Section Traces.
Context {pyfloat : Type}.

(** The page requests of a trace of the recall scraper, in order, each
    with its query, limit and offset. *)
Definition page_requests (tr : list (FsisRecalls.event pyfloat)) : list (string * Z * Z) :=
  omap (fun e => match e with
                 | FsisRecalls.Get q limit skip => Some (q, limit, skip)
                 | _ => None
                 end) tr.

(** The records handed to the store in a trace of the recall scraper. *)
Definition recalls_upserted (tr : list (FsisRecalls.event pyfloat)) : list (Violation pyfloat) :=
  omap (fun e => match e with
                 | FsisRecalls.Execute v => Some v
                 | _ => None
                 end) tr.

(** The source id the recall normalizer gives to a recall number. *)
Definition fda_id (recall_number : string) : string := "FDA-" +:+ recall_number.

(** The records handed to the store in a trace of the facility scraper. *)
Definition facilities_upserted (tr : list (EpaEcho.event pyfloat)) : list (Violation pyfloat) :=
  omap (fun e => match e with
                 | EpaEcho.Execute v => Some v
                 | _ => None
                 end) tr.



End Traces.


(** A recall server whose every page holds 100 results, and one whose
    every page holds a single result. *)
Definition full_page_server (n : nat) (search : string) (limit skip : Z)
  : FsisRecalls.response :=
  FsisRecalls.Json (replicate 100 ∅).

Definition short_page_server (n : nat) (search : string) (limit skip : Z)
  : FsisRecalls.response :=
  FsisRecalls.Json [∅].

(** The state [scrape_fsis_recalls] starts from. *)
Definition fresh_recall_run {pyfloat : Type} (db : Conn pyfloat)
  : FsisRecalls.world (pyfloat := pyfloat) :=
  FsisRecalls.mkWorld db ∅ 0%nat [] 0%nat.

(** What a run of the recall scraper keeps true: the table is the initial
    one after the upserts of the trace, in order; these upserts carry the
    source ids of pairwise distinct recall numbers, all of them in the set
    of seen numbers. *)
Definition recall_run_ok {pyfloat : Type} (db : Conn pyfloat)
    (st : FsisRecalls.world (pyfloat := pyfloat)) : Prop :=
  FsisRecalls.conn st = upsert_all db (recalls_upserted (FsisRecalls.trace st))
  /\ exists nums : list string,
       map source_id (recalls_upserted (FsisRecalls.trace st))
       = map (fun n => Some (fda_id n)) nums
       /\ NoDup nums
       /\ forall n, n ∈ nums -> n ∈ FsisRecalls.seen_ids st.

(** Two states of the recall scraper that differ in the table at most. *)
Definition same_recall_run {pyfloat : Type}
    (a b : FsisRecalls.world (pyfloat := pyfloat)) : Prop :=
  FsisRecalls.seen_ids a = FsisRecalls.seen_ids b
  /\ FsisRecalls.total_inserted a = FsisRecalls.total_inserted b
  /\ FsisRecalls.trace a = FsisRecalls.trace b
  /\ FsisRecalls.requests a = FsisRecalls.requests b.

(** The state [scrape_epa_echo] starts from. *)
Definition fresh_facility_run {pyfloat : Type} (db : Conn pyfloat)
  : EpaEcho.world (pyfloat := pyfloat) :=
  EpaEcho.mkWorld db 0%nat [] 0%nat.



(** Loaders for a run in which both network sources fail: three seed
    records, a transport error and a time-out. *)
Definition seed_three (w : unit) : nat * unit := (3%nat, w).


Definition epa_times_out (max_per_sic : Z) (w : unit) : result nat * unit :=
  (Raise ScraperTimeout, w).

(** What a run of the facility scraper keeps true: the table is the
    initial one after the upserts of the trace, in order, and each of these
    carries a source id. *)
Definition facility_run_ok {pyfloat : Type} (db : Conn pyfloat)
    (w : EpaEcho.world (pyfloat := pyfloat)) : Prop :=
  EpaEcho.conn w = upsert_all db (facilities_upserted (EpaEcho.trace w))
  /\ Forall (fun v => is_Some (source_id v)) (facilities_upserted (EpaEcho.trace w)).



(** A step of the facility scraper that only talks to the network or
    waits: the table, the counter and the upserts of the trace stay. *)
Definition network_only {pyfloat : Type} (w w' : EpaEcho.world (pyfloat := pyfloat)) : Prop :=
  EpaEcho.conn w' = EpaEcho.conn w
  /\ EpaEcho.total_inserted w' = EpaEcho.total_inserted w
  /\ facilities_upserted (EpaEcho.trace w') = facilities_upserted (EpaEcho.trace w).

Section StoreView.
Context {pyfloat : Type}.

(** The stored row with a given source and source id: the first one in
    insertion order. *)
Definition stored (t : Conn pyfloat) (src sid : string) : option (Violation pyfloat) :=
  find (fun row => bool_decide (key row = (Some src, Some sid))) t.

(** A record the store can take under a given source and source id: it
    carries them, and a facility name. *)
Definition storable_as (src sid : string) (r : Violation pyfloat) : bool :=
  bool_decide (key r = (Some src, Some sid)) && bool_decide (is_Some (facility_name r)).

End StoreView.

(** The character at a position of a string, as a one-character string;
    the empty string past the end. *)
Definition char_at (n : nat) (s : string) : string := substring n 1 s.

(** A recall with a product description of 2500 characters, and one dated
    the way openFDA writes dates. *)
Definition verbose_recall : gmap string string :=
  {[ "recall_number" := "F-0001-2024";
     "product_description" := repeat_string "x" 2500 ]}.

Definition dated_recall : gmap string string :=
  {[ "recall_number" := "F-0002-2024";
     "recall_initiation_date" := "20230615" ]}.

(** The same facility as [penalised_facility], reported under another
    name. *)
Definition renamed_facility : gmap string string :=
  <[ "CWPName" := "Example Feedlot LLC" ]> penalised_facility.

(** A facility whose latitude parses and whose longitude does not, taking
    [int_of_str] for the parser. *)
Definition half_located_facility : gmap string string :=
  {[ "SourceID" := "IA0000004"; "CWPSNCStatus" := "S";
     "FacLat" := "41"; "FacLong" := "west" ]}.

(** The request got no JSON body: an HTTP error status (a 404 included)
    or any other failure. *)
Definition no_body (r : FsisRecalls.response) : Prop :=
  match r with
  | FsisRecalls.Json _ => False
  | _ => True
  end.

(** A recall server that is down, and one that answers 404 to all. *)
Definition unreachable_recall_server (n : nat) (search : string) (limit skip : Z)
  : FsisRecalls.response := FsisRecalls.Failure.

(** A page request as the recall scraper may issue it under a cap: one of
    the fixed queries, a limit of 100, an offset from 0 up to the cap. *)
Definition page_request_ok (max_per_query : Z) (rq : string * Z * Z) : Prop :=
  rq.1.1 ∈ FsisRecalls.SEARCH_QUERIES /\ rq.1.2 = 100 /\ 0 <= rq.2 < max_per_query.

(** The number of pages of 100 that a cap allows. *)
Definition pages_within (cap : Z) : nat := Z.to_nat ((cap + 99) / 100).

(** The counter of the recall scraper counts the calls on the store, and
    the distinct recall numbers seen. *)
Definition recall_count_ok {pyfloat : Type}
    (st : FsisRecalls.world (pyfloat := pyfloat)) : Prop :=
  FsisRecalls.total_inserted st = length (recalls_upserted (FsisRecalls.trace st))
  /\ size (FsisRecalls.seen_ids st) = FsisRecalls.total_inserted st.

(** A facility server that is down. *)
Definition unreachable_facility_server (n : nat) (r : EpaEcho.request) : EpaEcho.response :=
  EpaEcho.Failure.


(** A facility server that names a job of 250 rows and never gets a page
    of it ready. *)
Definition stalled_page_server (n : nat) (r : EpaEcho.request) : EpaEcho.response :=
  match r with
  | EpaEcho.get_facilities _ =>
      EpaEcho.Json (EpaEcho.mkResults (Some (JStr "Success")) (Some (JStr "250"))
                      (Some (JStr "7")) [])
  | EpaEcho.get_qid _ _ =>
      EpaEcho.Json (EpaEcho.mkResults (Some (JStr "Working")) None None [])
  end.


(** The attempt on a page brought no page: the request failed, the body
    was not what the fetcher reads, or the page is still being worked
    on. *)
Definition page_not_ready (r : EpaEcho.response) : Prop :=
  match r with
  | EpaEcho.Json results => EpaEcho.is_working results = true
  | _ => True
  end.

(** The most requests one category can take under a cap: the initiating
    query, 12 polls, and 6 attempts on each page. *)
Definition category_budget (max_facilities : Z) : nat :=
  (13 + 6 * pages_within max_facilities)%nat.

(** The calls on the alarm in a log of [main], in order. *)
Definition alarms (log : list Scrape.action) : list Z :=
  omap (fun a => match a with Scrape.Alarm seconds => Some seconds | _ => None end) log.

(** A recall scraper that is interrupted from the keyboard, and scrapers
    that return counts. *)
Definition fsis_interrupted (max_per_query : Z) (w : unit) : result nat * unit :=
  (Raise (BaseExceptionOnly "KeyboardInterrupt"), w).

Definition fsis_returns_7 (max_per_query : Z) (w : unit) : result nat * unit :=
  (Return 7%nat, w).

Definition epa_returns_2 (max_per_sic : Z) (w : unit) : result nat * unit :=
  (Return 2%nat, w).






Section ReadSide.
Context {pyfloat : Type}.



End ReadSide.

(** A plan that evaluates every condition on every row. *)
Definition full_scan {pyfloat : Type} (q : App.statement)
    (row : App.Row (pyfloat := pyfloat)) : bool := true.

(** Three rows to list: two recalls of different dates and a facility
    without date. *)
Definition listed_rows : Conn unit :=
  [ FsisRecalls.recall_to_violation
      {[ "recall_number" := "F-1"; "recalling_firm" := "Acme Meats";
         "recall_initiation_date" := "20230615"; "state" := "IA" ]};
    FsisRecalls.recall_to_violation
      {[ "recall_number" := "F-2"; "recalling_firm" := "Best Poultry";
         "recall_initiation_date" := "20240102"; "state" := "ia" ]};
    identified_row ].

End Spec.

Import Spec.

(** ** The canonical store *)

Section StoreFacts.
Context {pyfloat : Type}.
Implicit Types (t conn : Conn pyfloat) (r row : Violation pyfloat).

Lemma collides_key row r :
  collides row r = true ->
  key row = key r /\ is_Some (source_id r) /\ is_Some (source r).
Proof.
  unfold collides, key.
  destruct (source row) as [a|], (source r) as [b|],
           (source_id row) as [x|], (source_id r) as [y|]; try discriminate.
  intros H. apply andb_true_iff in H as [Ha Hx].
  apply String.eqb_eq in Ha, Hx. subst. eauto.
Qed.

Lemma key_collides row r :
  key row = key r -> is_Some (source r) -> is_Some (source_id r) ->
  collides row r = true.
Proof.
  unfold collides, key. intros [= Hs Hi] [a Ha] [x Hx].
  rewrite Hs, Hi, Ha, Hx. by rewrite !String.eqb_refl.
Qed.

Lemma insert_or_ignore_cases conn r :
  (insert_or_ignore conn r = conn ++ [r] /\ not_null_ok r = true
     /\ forall row, row ∈ conn -> collides row r = false)
  \/ (insert_or_ignore conn r = conn
      /\ (not_null_ok r = false \/ exists row, row ∈ conn /\ collides row r = true)).
Proof.
  unfold insert_or_ignore.
  destruct (not_null_ok r) eqn:Hn; simpl; [|right; auto].
  destruct (existsb _ conn) eqn:He; simpl.
  - right. split; [done|]. right.
    apply existsb_exists in He as (row & Hin & Hc).
    exists row. split; [by apply list_elem_of_In|done].
  - left. repeat split. intros row Hin.
    destruct (collides row r) eqn:Hc; [|done].
    assert (existsb (fun row => collides row r) conn = true) as Habs; [|congruence].
    apply existsb_exists. exists row. split; [by apply list_elem_of_In|done].
Qed.

Lemma not_null_ok_spec r :
  not_null_ok r = true <-> is_Some (facility_name r) /\ is_Some (source r).
Proof.
  unfold not_null_ok. rewrite andb_true_iff, !bool_decide_eq_true. done.
Qed.

(** The table only grows, at its end. *)
Lemma insert_or_ignore_extends conn r :
  exists rows, insert_or_ignore conn r = conn ++ rows.
Proof.
  destruct (insert_or_ignore_cases conn r) as [(-> & _)|(-> & _)].
  - by exists [r].
  - exists []. by rewrite app_nil_r.
Qed.

Lemma upsert_all_extends rs conn :
  exists rows, upsert_all conn rs = conn ++ rows.
Proof.
  revert conn. induction rs as [|r rs IH]; intros conn; simpl.
  - exists []. by rewrite app_nil_r.
  - destruct (insert_or_ignore_extends conn r) as [rows1 E1].
    destruct (IH (insert_or_ignore conn r)) as [rows2 E2].
    exists (rows1 ++ rows2). unfold upsert_all in *. simpl.
    by rewrite E2, E1, <- app_assoc.
Qed.

Lemma absorbed_spec conn r :
  absorbed conn r <->
  not_null_ok r = false \/ exists row, row ∈ conn /\ collides row r = true.
Proof.
  unfold absorbed. split.
  - intros E. destruct (insert_or_ignore_cases conn r) as [(E' & _)|(_ & H)]; [|done].
    rewrite E in E'. apply (f_equal length) in E'.
    rewrite length_app in E'. simpl in E'. lia.
  - intros H. destruct (insert_or_ignore_cases conn r) as [(_ & Hn & Hc)|(E & _)]; [|done].
    destruct H as [H|(row & Hin & H)]; [congruence|].
    rewrite (Hc row Hin) in H. discriminate.
Qed.

Lemma absorbed_extends conn rows r :
  absorbed conn r -> absorbed (conn ++ rows) r.
Proof.
  rewrite !absorbed_spec. intros [H|(row & Hin & H)]; [by left|right].
  exists row. split; [|done]. apply elem_of_app. by left.
Qed.

(** Once upserted, a record with an identifier is absorbed. *)
Lemma absorbed_after_insert conn r :
  is_Some (source_id r) -> absorbed (insert_or_ignore conn r) r.
Proof.
  intros Hid. apply absorbed_spec.
  destruct (insert_or_ignore_cases conn r) as [(-> & Hn & _)|(-> & H)]; [|done].
  right. exists r. split; [apply elem_of_app; right; by apply list_elem_of_singleton|].
  apply key_collides; [done| |done]. by apply not_null_ok_spec in Hn as [_ ?].
Qed.

Lemma upsert_all_absorbed conn rs :
  Forall (absorbed conn) rs -> upsert_all conn rs = conn.
Proof.
  unfold upsert_all. induction 1 as [|r rs Hr _ IH]; simpl; [done|].
  by rewrite Hr.
Qed.

Lemma absorbed_after_upsert_all rs conn :
  Forall (fun r => is_Some (source_id r)) rs ->
  Forall (absorbed (upsert_all conn rs)) rs.
Proof.
  intros Hall. revert conn.
  induction Hall as [|r rs Hr _ IH]; intros conn; [constructor|].
  unfold upsert_all. simpl. constructor; [|apply IH].
  destruct (upsert_all_extends rs (insert_or_ignore conn r)) as [rows E].
  unfold upsert_all in E. rewrite E.
  by apply absorbed_extends, absorbed_after_insert.
Qed.




End StoreFacts.




(** ** Strings *)

Lemma length_append (a b : string) :
  String.length (a +:+ b) = (String.length a + String.length b)%nat.
Proof. induction a as [|c a IH]; simpl; [done|by rewrite IH]. Qed.

Lemma length_substring_0 (n : nat) (s : string) :
  String.length (substring 0 n s) = Nat.min n (String.length s).
Proof.
  revert s. induction n as [|n IH]; intros [|c s]; simpl; try done.
  by rewrite IH.
Qed.

Lemma length_slice_to (n : nat) (s : string) :
  (n <= String.length s)%nat -> String.length (slice_to n s) = n.
Proof. intros H. unfold slice_to. rewrite length_substring_0. lia. Qed.

(** ** The recall normalizer *)

Section RecallFacts.
Context {pyfloat : Type}.
Implicit Types recall : gmap string string.

Abbreviation normalize_recall := (FsisRecalls.recall_to_violation (pyfloat := pyfloat)).

Lemma recall_description recall :
  description (normalize_recall recall)
  = Some (let d := assembled_description recall in
          if 2000 <? len d then slice_to 1997 d +:+ "..." else d).
Proof. reflexivity. Qed.

Lemma recall_source_id recall :
  source_id (normalize_recall recall)
  = Some ("FDA-" +:+ dict_get recall "recall_number" EmptyString).
Proof. reflexivity. Qed.

Lemma recall_severity recall :
  severity (normalize_recall recall)
  = Some (default "Medium"
            (FsisRecalls.CLASS_SEVERITY !! dict_get recall "classification" EmptyString)).
Proof. reflexivity. Qed.

Lemma recall_date recall :
  date (normalize_recall recall)
  = (let init_date := dict_get recall "recall_initiation_date" EmptyString in
     if truthy init_date && (len init_date =? 8)
     then Some (slice_to 4 init_date +:+ "-" +:+ slice 4 6 init_date +:+ "-"
                +:+ slice 6 8 init_date)
     else None).
Proof. reflexivity. Qed.

End RecallFacts.

(** C8. The recall normalizer assigns severity by lookup of the
    classification: [Class I] gives [High], [Class II] gives [Medium],
    [Class III] gives [Low], any other classification (a missing one
    included) gives [Medium]; the severity is never absent. *)
Theorem recall_severity_by_classification (pyfloat : Type) (recall : gmap string string) :
  let classification := dict_get recall "classification" EmptyString in
  let v := FsisRecalls.recall_to_violation (pyfloat := pyfloat) recall in
  (classification = "Class I" -> severity v = Some "High")
  /\ (classification = "Class II" -> severity v = Some "Medium")
  /\ (classification = "Class III" -> severity v = Some "Low")
  /\ (classification <> "Class I" -> classification <> "Class II" ->
      classification <> "Class III" -> severity v = Some "Medium")
  /\ is_Some (severity v).
Proof.
  intros classification v. subst v. rewrite recall_severity.
  fold classification. repeat split.
  - by intros ->.
  - by intros ->.
  - by intros ->.
  - intros H1 H2 H3. unfold FsisRecalls.CLASS_SEVERITY.
    by rewrite !lookup_insert_ne, lookup_singleton_ne.
  - by eexists.
Qed.

Lemma recall_severity_by_classification_witness :
  severity (FsisRecalls.recall_to_violation (pyfloat := unit)
              {[ "classification" := "Class I" ]}) = Some "High"
  /\ severity (FsisRecalls.recall_to_violation (pyfloat := unit)
                 {[ "classification" := "Class II" ]}) = Some "Medium"
  /\ severity (FsisRecalls.recall_to_violation (pyfloat := unit)
                 {[ "classification" := "Class III" ]}) = Some "Low"
  /\ severity (FsisRecalls.recall_to_violation (pyfloat := unit)
                 {[ "classification" := "Class IV" ]}) = Some "Medium".
Proof.
  destruct (recall_severity_by_classification unit {[ "classification" := "Class I" ]})
    as (H1 & _).
  destruct (recall_severity_by_classification unit {[ "classification" := "Class II" ]})
    as (_ & H2 & _).
  destruct (recall_severity_by_classification unit {[ "classification" := "Class III" ]})
    as (_ & _ & H3 & _).
  destruct (recall_severity_by_classification unit {[ "classification" := "Class IV" ]})
    as (_ & _ & _ & H4 & _).
  split; [apply H1; reflexivity|].
  split; [apply H2; reflexivity|].
  split; [apply H3; reflexivity|].
  apply H4; vm_compute; discriminate.
Defined.

(** The recall normalizer caps the description at 2000 characters: one
    that is longer as assembled becomes its first 1997 characters and three
    dots, 2000 characters in all. *)
Lemma recall_description_capped (pyfloat : Type) (recall : gmap string string) :
  exists d,
    description (FsisRecalls.recall_to_violation (pyfloat := pyfloat) recall) = Some d
    /\ len d <= 2000
    /\ (2000 < len (assembled_description recall) ->
        d = slice_to 1997 (assembled_description recall) +:+ "..." /\ len d = 2000).
Proof.
  rewrite recall_description. cbv zeta.
  set (a := assembled_description recall).
  assert (2000 < len a ->
          len (slice_to 1997 a +:+ "...") = 2000) as Hcut.
  { unfold len. intros H. rewrite length_append, length_slice_to by lia.
    reflexivity. }
  eexists. split; [reflexivity|].
  destruct (2000 <? len a) eqn:Hlen.
  - apply Z.ltb_lt in Hlen. split; [rewrite Hcut; lia|done || auto].
  - apply Z.ltb_ge in Hlen. split; [done|lia].
Qed.

(** ** The facility normalizer *)

Section FacilityFacts.
Context {pyfloat : Type} (float_of_str : string -> option pyfloat).
Implicit Types facility : gmap string string.

Abbreviation normalize_facility := (EpaEcho.facility_to_violation float_of_str).

(** The drop rule. *)
Lemma facility_dropped facility sic_code :
  normalize_facility facility sic_code = None
  <-> (quarters_in_noncompliance facility =? 0)
      && negb (snc_flag facility) && negb (violation_in_status facility)
      && negb (has_last_penalty_date facility) = true.
Proof.
  unfold EpaEcho.facility_to_violation, quarters_in_noncompliance, snc_flag,
    violation_in_status, has_last_penalty_date.
  cbv zeta.
  destruct (match EpaEcho.float_if float_of_str (facility !! "FacLat") with
            | Some _ => _ | None => _ end) as [lat lon].
  destruct (truthy (dict_get facility "CWPSNCStatus" EmptyString)
            && points_contain (code_points "S")
                 (upper (dict_get facility "CWPSNCStatus" EmptyString)));
    [rewrite !andb_false_r; simpl; done|].
  destruct (truthy (dict_get facility "CWPComplianceStatus" EmptyString)
            && contains "violation"
                 (lower (dict_get facility "CWPComplianceStatus" EmptyString)));
    [rewrite !andb_false_r; simpl; done|].
  simpl. rewrite !andb_true_r.
  destruct (_ && _); done.
Qed.

(** The severity rule and the date of a record that is kept. *)
Lemma facility_kept facility sic_code v :
  normalize_facility facility sic_code = Some v ->
  severity v = Some (if snc_flag facility then "High"
                     else if violation_in_status facility then "Medium" else "Low")
  /\ date v = (let last_penalty_date := dict_get facility "CWPDateLastPenalty" EmptyString in
               let last_inspection := dict_get facility "CWPDateLastInspection" EmptyString in
               if truthy last_penalty_date then Some last_penalty_date
               else if truthy last_inspection then Some last_inspection else None)
  /\ source_id v = Some ("ECHO-CWA-" +:+ dict_get facility "SourceID" EmptyString).
Proof.
  unfold EpaEcho.facility_to_violation, snc_flag, violation_in_status.
  cbv zeta.
  destruct (match EpaEcho.float_if float_of_str (facility !! "FacLat") with
            | Some _ => _ | None => _ end) as [lat lon].
  destruct (_ && _ && _); [discriminate|].
  intros [= <-]. done.
Qed.

End FacilityFacts.

(** C4. A facility with no quarter in noncompliance, no
    significant-noncompliance flag and no compliance-status text containing
    [violation] is dropped when it has no last-penalty date, and is kept
    with severity [Low] when it has one. *)
Theorem facility_without_issue (pyfloat : Type) (float_of_str : string -> option pyfloat)
    (facility : gmap string string) (sic_code : string) :
  quarters_in_noncompliance facility = 0 ->
  snc_flag facility = false ->
  violation_in_status facility = false ->
  (has_last_penalty_date facility = false ->
   EpaEcho.facility_to_violation float_of_str facility sic_code = None)
  /\ (has_last_penalty_date facility = true ->
      exists v, EpaEcho.facility_to_violation float_of_str facility sic_code = Some v
                /\ severity v = Some "Low").
Proof.
  intros Hq Hsnc Hviol. split; intros Hdate.
  - apply facility_dropped. rewrite Hq, Hsnc, Hviol, Hdate. reflexivity.
  - destruct (EpaEcho.facility_to_violation float_of_str facility sic_code) as [v|] eqn:E.
    + exists v. split; [done|].
      destruct (facility_kept float_of_str facility sic_code v E) as (-> & _).
      by rewrite Hsnc, Hviol.
    + apply facility_dropped in E. rewrite Hdate, andb_false_r in E. discriminate.
Qed.

Lemma facility_without_issue_witness :
  EpaEcho.facility_to_violation no_float quiet_facility "0211" = None
  /\ exists v, EpaEcho.facility_to_violation no_float quiet_penalised_facility "0211" = Some v
               /\ severity v = Some "Low".
Proof.
  split.
  - apply (facility_without_issue unit no_float quiet_facility "0211");
      vm_compute; reflexivity.
  - apply (facility_without_issue unit no_float quiet_penalised_facility "0211");
      vm_compute; reflexivity.
Defined.

(** C5, at the failing input. The facility normalizer joins its parts
    and stores the result as it is: a permit status text of 2001
    characters gives a description of 2049 characters, over the cap of
    2000 that the recall normalizer enforces. *)
Theorem facility_description_uncapped :
  exists v d,
    EpaEcho.facility_to_violation no_float verbose_facility "0211" = Some v
    /\ description v = Some d
    /\ len d = 2049
    /\ ~ len d <= 2000.
Proof.
  eexists. eexists. split; [reflexivity|]. split; [reflexivity|].
  split; [vm_compute; reflexivity|].
  intros H. vm_compute in H. by apply H.
Qed.

(** C2, at the failing input. The facility normalizer hands on the
    last-penalty date as the source wrote it: [06/15/2023] stays
    [06/15/2023], which is not of the form [YYYY-MM-DD]. *)
Theorem facility_date_not_iso :
  exists v,
    EpaEcho.facility_to_violation no_float penalised_facility "0211" = Some v
    /\ date v = Some "06/15/2023"
    /\ is_iso_date "06/15/2023" = false.
Proof.
  eexists. split; [vm_compute; reflexivity|]. split; reflexivity.
Qed.

(** The recall normalizer rewrites an initiation date of eight characters
    by position; the result is of the form [YYYY-MM-DD] when the eight
    characters are digits, and a date of any other length is dropped. *)
Lemma recall_date_iso (pyfloat : Type) (recall : gmap string string) (d : string) :
  date (FsisRecalls.recall_to_violation (pyfloat := pyfloat) recall) = Some d ->
  String.length (dict_get recall "recall_initiation_date" EmptyString) = 8%nat
  /\ (all_digits (dict_get recall "recall_initiation_date" EmptyString) = true ->
      is_iso_date d = true).
Proof.
  rewrite recall_date. cbv zeta.
  set (init_date := dict_get recall "recall_initiation_date" EmptyString).
  destruct (truthy init_date && (len init_date =? 8)) eqn:E; [|discriminate].
  intros [= <-].
  apply andb_true_iff in E as [_ E]. apply Z.eqb_eq in E. unfold len in E.
  assert (String.length init_date = 8%nat) as Hlen by lia.
  split; [done|]. clear E.
  destruct init_date as [|c1 [|c2 [|c3 [|c4 [|c5 [|c6 [|c7 [|c8 [|c9 s]]]]]]]]];
    try discriminate.
  unfold all_digits, is_iso_date. simpl.
  intros H. rewrite !andb_true_r in *. by rewrite !andb_true_iff in *.
Qed.

(** ** The paginated recall fetcher *)

Section FsisFacts.
Context {pyfloat : Type} (server : nat -> string -> Z -> Z -> FsisRecalls.response).
Implicit Types (st : FsisRecalls.world (pyfloat := pyfloat)) (recall : gmap string string).

Import FsisRecalls.

Lemma page_requests_snoc (tr : list (event pyfloat)) e :
  page_requests (tr ++ [e]) = page_requests tr ++ page_requests [e].
Proof. unfold page_requests. by rewrite omap_app. Qed.

Lemma recalls_upserted_snoc (tr : list (event pyfloat)) e :
  recalls_upserted (tr ++ [e]) = recalls_upserted tr ++ recalls_upserted [e].
Proof. unfold recalls_upserted. by rewrite omap_app. Qed.

(** A payload whose recall number has been seen is skipped: nothing is
    normalized, stored, counted or recorded. *)
Lemma process_recall_seen st recall :
  dict_get recall "recall_number" EmptyString ∈ seen_ids st ->
  process_recall st recall = st.
Proof.
  intros Hin. unfold process_recall.
  by rewrite bool_decide_eq_true_2.
Qed.

Lemma process_recall_fresh st recall :
  dict_get recall "recall_number" EmptyString ∉ seen_ids st ->
  process_recall st recall
  = mkWorld (insert_or_ignore (conn st) (recall_to_violation recall))
            ({[dict_get recall "recall_number" EmptyString]} ∪ seen_ids st)
            (S (total_inserted st))
            (trace st ++ [Execute (recall_to_violation recall)])
            (requests st).
Proof.
  intros Hin. unfold process_recall.
  by rewrite bool_decide_eq_false_2.
Qed.

(** The recall number of every payload that went through is in the set. *)
Lemma process_recall_records st recall :
  dict_get recall "recall_number" EmptyString ∈ seen_ids (process_recall st recall).
Proof.
  destruct (decide (dict_get recall "recall_number" EmptyString ∈ seen_ids st)) as [H|H].
  - by rewrite process_recall_seen.
  - rewrite process_recall_fresh by done. simpl. set_solver.
Qed.

Lemma process_recall_network st recall :
  requests (process_recall st recall) = requests st
  /\ page_requests (trace (process_recall st recall)) = page_requests (trace st).
Proof.
  destruct (decide (dict_get recall "recall_number" EmptyString ∈ seen_ids st)) as [H|H].
  - by rewrite process_recall_seen.
  - rewrite process_recall_fresh by done. simpl.
    rewrite page_requests_snoc. simpl. by rewrite app_nil_r.
Qed.

Lemma process_page_network results st :
  requests (fold_left process_recall results st) = requests st
  /\ page_requests (trace (fold_left process_recall results st)) = page_requests (trace st).
Proof.
  revert st. induction results as [|recall results IH]; intros st; simpl; [done|].
  destruct (IH (process_recall st recall)) as [-> ->].
  apply process_recall_network.
Qed.

Lemma fetch_recalls_json query skip st results :
  server (requests st) query 100 skip = Json results ->
  fetch_recalls server query 100 skip st
  = (results, mkWorld (conn st) (seen_ids st) (total_inserted st)
                      (trace st ++ [Get query 100 skip]) (S (requests st))).
Proof.
  intros E. unfold fetch_recalls. change (Z.min 100 100) with 100.
  cbv zeta. by rewrite E.
Qed.

(** One turn of the loop on a full page. *)
Lemma paginate_full_page fuel query max_per_query skip st results :
  skip < max_per_query ->
  server (requests st) query 100 skip = Json results ->
  (100 <= length results)%nat ->
  exists st1,
    paginate server (S fuel) query max_per_query skip st
    = paginate server fuel query max_per_query (skip + Z.of_nat (length results)) st1
    /\ requests st1 = S (requests st)
    /\ page_requests (trace st1) = page_requests (trace st) ++ [(query, 100, skip)].
Proof.
  intros Hlt Hresp Hlen. simpl.
  apply Z.ltb_lt in Hlt. rewrite Hlt.
  rewrite (fetch_recalls_json _ _ _ _ Hresp).
  destruct results as [|recall results]; [simpl in Hlen; lia|].
  destruct (Z.of_nat (length (recall :: results)) <? 100) eqn:E;
    [apply Z.ltb_lt in E; lia|].
  eexists. split; [reflexivity|].
  unfold sleep, emit. cbn [requests trace].
  rewrite page_requests_snoc. cbn [page_requests omap]. rewrite app_nil_r.
  match goal with |- context [fold_left process_recall ?rs ?w] =>
    destruct (process_page_network rs w) as [-> ->] end.
  cbn [requests trace]. rewrite page_requests_snoc. done.
Qed.

(** One turn of the loop on a page that is not full: the loop ends. *)
Lemma paginate_short_page fuel query max_per_query skip st results :
  skip < max_per_query ->
  server (requests st) query 100 skip = Json results ->
  (length results < 100)%nat ->
  exists st1,
    paginate server (S fuel) query max_per_query skip st = Some st1
    /\ requests st1 = S (requests st)
    /\ page_requests (trace st1) = page_requests (trace st) ++ [(query, 100, skip)].
Proof.
  intros Hlt Hresp Hlen. simpl.
  apply Z.ltb_lt in Hlt. rewrite Hlt.
  rewrite (fetch_recalls_json _ _ _ _ Hresp).
  destruct results as [|recall results].
  - eexists. split; [reflexivity|]. simpl. by rewrite page_requests_snoc.
  - destruct (Z.of_nat (length (recall :: results)) <? 100) eqn:E;
      [|apply Z.ltb_ge in E; lia].
    eexists. split; [reflexivity|].
    match goal with |- context [fold_left process_recall ?rs ?w] =>
      destruct (process_page_network rs w) as [-> ->] end.
    cbn [requests trace]. by rewrite page_requests_snoc.
Qed.

Lemma paginate_done fuel query max_per_query skip st :
  max_per_query <= skip ->
  paginate server fuel query max_per_query skip st = Some st.
Proof.
  intros H. apply Z.ltb_ge in H. destruct fuel; simpl; by rewrite H.
Qed.

End FsisFacts.

(** C7. When every page of a query comes back with exactly 100 results
    and the cap is 250, the loop issues exactly three page requests, at
    offsets 0, 100 and 200, and stops; and whatever the query, the cap and
    the offset, a page with fewer than 100 results is the last one
    requested. *)
Theorem pagination_terminates (pyfloat : Type)
    (server : nat -> string -> Z -> Z -> FsisRecalls.response)
    (query : string) (st : FsisRecalls.world (pyfloat := pyfloat)) :
  ((forall n skip, exists results,
       server n query 100 skip = FsisRecalls.Json results /\ length results = 100%nat) ->
   exists st',
     FsisRecalls.paginate server (Z.to_nat 250) query 250 0 st = Some st'
     /\ page_requests (FsisRecalls.trace st')
        = page_requests (FsisRecalls.trace st)
          ++ [(query, 100, 0); (query, 100, 100); (query, 100, 200)]
     /\ FsisRecalls.requests st' = (FsisRecalls.requests st + 3)%nat)
  /\ (forall fuel max_per_query skip results,
        skip < max_per_query ->
        server (FsisRecalls.requests st) query 100 skip = FsisRecalls.Json results ->
        (length results < 100)%nat ->
        exists st',
          FsisRecalls.paginate server (S fuel) query max_per_query skip st = Some st'
          /\ page_requests (FsisRecalls.trace st')
             = page_requests (FsisRecalls.trace st) ++ [(query, 100, skip)]
          /\ FsisRecalls.requests st' = S (FsisRecalls.requests st)).
Proof.
  split.
  - intros Hfull.
    change (Z.to_nat 250) with (S (S (S 247))).
    destruct (Hfull (FsisRecalls.requests st) 0) as (r0 & E0 & L0).
    destruct (paginate_full_page server 249 query 250 0 st r0) as (st1 & -> & R1 & T1);
      [lia|done|lia|].
    rewrite L0. change (0 + Z.of_nat 100) with 100.
    destruct (Hfull (FsisRecalls.requests st1) 100) as (r1 & E1 & L1).
    destruct (paginate_full_page server 248 query 250 100 st1 r1) as (st2 & -> & R2 & T2);
      [lia|done|lia|].
    rewrite L1. change (100 + Z.of_nat 100) with 200.
    destruct (Hfull (FsisRecalls.requests st2) 200) as (r2 & E2 & L2).
    destruct (paginate_full_page server 247 query 250 200 st2 r2) as (st3 & -> & R3 & T3);
      [lia|done|lia|].
    rewrite L2. change (200 + Z.of_nat 100) with 300.
    exists st3. split; [apply paginate_done; lia|].
    split; [|lia].
    rewrite T3, T2, T1, <- !app_assoc. reflexivity.
  - intros fuel max_per_query skip results Hlt Hresp Hlen.
    destruct (paginate_short_page server fuel query max_per_query skip st results)
      as (st1 & E & R & T); [done..|].
    exists st1. done.
Qed.

Lemma pagination_terminates_witness :
  (exists st',
      FsisRecalls.paginate full_page_server (Z.to_nat 250) "beef" 250 0
        (fresh_recall_run (@init_db unit)) = Some st'
      /\ page_requests (FsisRecalls.trace st')
         = [("beef", 100, 0); ("beef", 100, 100); ("beef", 100, 200)]
      /\ FsisRecalls.requests st' = 3%nat)
  /\ (exists st',
        FsisRecalls.paginate short_page_server 1 "beef" 250 0
          (fresh_recall_run (@init_db unit)) = Some st'
        /\ page_requests (FsisRecalls.trace st') = [("beef", 100, 0)]
        /\ FsisRecalls.requests st' = 1%nat).
Proof.
  split.
  - apply (pagination_terminates unit full_page_server "beef"
             (fresh_recall_run init_db)).
    intros n skip. eexists. split; reflexivity.
  - apply (proj2 (pagination_terminates unit short_page_server "beef"
                    (fresh_recall_run init_db)) 0%nat 250 0 [∅]).
    + reflexivity.
    + reflexivity.
    + simpl. lia.
Defined.

(** ** A whole run of the recall scraper *)

Section FsisRun.
Context {pyfloat : Type} (server : nat -> string -> Z -> Z -> FsisRecalls.response).
Implicit Types (st : FsisRecalls.world (pyfloat := pyfloat)) (db : Conn pyfloat).

Import FsisRecalls.

Lemma upsert_all_snoc db (rs : list (Violation pyfloat)) r :
  upsert_all db (rs ++ [r]) = insert_or_ignore (upsert_all db rs) r.
Proof. unfold upsert_all. by rewrite fold_left_app. Qed.

Lemma fda_id_inj a b : fda_id a = fda_id b -> a = b.
Proof. unfold fda_id. simpl. intros H. by injection H. Qed.

(** Events other than a call on the store keep the invariant. *)
Lemma recall_run_ok_quiet db st st' :
  recall_run_ok db st ->
  conn st' = conn st -> seen_ids st' = seen_ids st ->
  recalls_upserted (trace st') = recalls_upserted (trace st) ->
  recall_run_ok db st'.
Proof.
  intros (Hc & nums & Hids & Hnd & Hseen) Ec Es Et.
  split; [by rewrite Ec, Et|].
  exists nums. rewrite Et, Es. done.
Qed.

Lemma recall_run_ok_emit db st e :
  recalls_upserted [e] = [] ->
  recall_run_ok db st -> recall_run_ok db (emit e st).
Proof.
  intros He H. apply (recall_run_ok_quiet db st); [done..|].
  simpl. by rewrite recalls_upserted_snoc, He, app_nil_r.
Qed.

Lemma recall_run_ok_fetch db st query limit skip :
  recall_run_ok db st ->
  recall_run_ok db (snd (fetch_recalls server query limit skip st)).
Proof.
  intros H. apply (recall_run_ok_quiet db st); [done|..];
    unfold fetch_recalls; destruct (server _ _ _ _); simpl; try done;
    by rewrite recalls_upserted_snoc, app_nil_r.
Qed.

Lemma recall_run_ok_process db st recall :
  recall_run_ok db st -> recall_run_ok db (process_recall st recall).
Proof.
  intros H.
  destruct (decide (dict_get recall "recall_number" EmptyString ∈ seen_ids st)) as [Hin|Hin].
  { by rewrite process_recall_seen. }
  rewrite process_recall_fresh by done.
  destruct H as (Hc & nums & Hids & Hnd & Hseen).
  split; simpl.
  - rewrite recalls_upserted_snoc. simpl. by rewrite upsert_all_snoc, Hc.
  - exists (nums ++ [dict_get recall "recall_number" EmptyString]).
    rewrite recalls_upserted_snoc, !map_app, Hids. simpl.
    split; [done|]. split.
    + apply NoDup_app. split; [done|]. split; [|apply NoDup_singleton].
      intros n Hn Hn'. apply list_elem_of_singleton in Hn'. subst n.
      by apply Hin, Hseen.
    + intros n Hn. apply elem_of_app in Hn as [Hn|Hn].
      * apply elem_of_union_r. by apply Hseen.
      * apply list_elem_of_singleton in Hn. subst n. set_solver.
Qed.

Lemma recall_run_ok_page db results st :
  recall_run_ok db st -> recall_run_ok db (fold_left process_recall results st).
Proof.
  revert st. induction results as [|recall results IH]; intros st H; simpl; [done|].
  by apply IH, recall_run_ok_process.
Qed.

Lemma recall_run_ok_paginate db fuel query max_per_query skip st st' :
  recall_run_ok db st ->
  paginate server fuel query max_per_query skip st = Some st' ->
  recall_run_ok db st'.
Proof.
  revert skip st. induction fuel as [|fuel IH]; intros skip st Hok; simpl.
  - destruct (skip <? max_per_query); [discriminate|]. by intros [= <-].
  - destruct (skip <? max_per_query); [|by intros [= <-]].
    pose proof (recall_run_ok_fetch db st query 100 skip Hok) as Hf.
    destruct (fetch_recalls server query 100 skip st) as [results st1].
    simpl in Hf.
    destruct results as [|recall results]; [by intros [= <-]|].
    pose proof (recall_run_ok_page db (recall :: results) st1 Hf) as Hp.
    destruct (Z.of_nat (length (recall :: results)) <? 100); [by intros [= <-]|].
    apply IH. by apply recall_run_ok_emit.
Qed.

(** The loop ends within the iterations it is given. *)
Lemma paginate_total fuel query max_per_query skip st :
  (Z.to_nat (max_per_query - skip) <= fuel)%nat ->
  is_Some (paginate server fuel query max_per_query skip st).
Proof.
  revert skip st. induction fuel as [|fuel IH]; intros skip st Hfuel; simpl.
  - destruct (skip <? max_per_query) eqn:E; [|by eexists].
    apply Z.ltb_lt in E. lia.
  - destruct (skip <? max_per_query) eqn:E; [|by eexists].
    apply Z.ltb_lt in E.
    destruct (fetch_recalls server query 100 skip st) as [results st1].
    destruct results as [|recall results]; [by eexists|].
    destruct (Z.of_nat (length (recall :: results)) <? 100) eqn:E'; [by eexists|].
    apply Z.ltb_ge in E'. apply IH. lia.
Qed.

Lemma scrape_query_ok db max_per_query st query :
  recall_run_ok db st ->
  exists st', scrape_query server max_per_query (Some st) query = Some st'
              /\ recall_run_ok db st'.
Proof.
  intros Hok. unfold scrape_query. simpl.
  destruct (paginate_total (Z.to_nat max_per_query) query max_per_query 0 st) as [st1 E];
    [lia|].
  rewrite E. simpl. eexists. split; [reflexivity|].
  apply recall_run_ok_emit; [done|]. apply recall_run_ok_emit; [done|].
  by apply (recall_run_ok_paginate db _ _ _ _ _ _ Hok E).
Qed.

Lemma scrape_queries_ok db max_per_query queries st :
  recall_run_ok db st ->
  exists st', fold_left (scrape_query server max_per_query) queries (Some st) = Some st'
              /\ recall_run_ok db st'.
Proof.
  revert st. induction queries as [|query queries IH]; intros st Hok; cbn [fold_left].
  - by exists st.
  - destruct (scrape_query_ok db max_per_query st query Hok) as (st1 & -> & Hok1).
    by apply IH.
Qed.

(** The scraper returns, and its final state satisfies the invariant. *)
Lemma scrape_fsis_recalls_ok max_per_query db :
  exists st,
    scrape_fsis_recalls server max_per_query db = Some (total_inserted st, st)
    /\ recall_run_ok db st.
Proof.
  unfold scrape_fsis_recalls.
  destruct (scrape_queries_ok db max_per_query SEARCH_QUERIES (mkWorld db ∅ 0%nat [] 0%nat))
    as (st & -> & Hok).
  { split; [done|]. exists []. split; [done|]. split; [constructor|].
    intros n Hn. by apply elem_of_nil in Hn. }
  exists (emit Close st). split; [reflexivity|]. by apply recall_run_ok_emit.
Qed.

End FsisRun.

Lemma NoDup_filter_le_1 {A B : Type} `{EqDecision B} (f : A -> B) (y : B) (l : list A) :
  NoDup (map f l) -> (length (filter (fun x => f x = y) l) <= 1)%nat.
Proof.
  induction l as [|x l IH]; simpl; [lia|].
  intros Hnd. apply NoDup_cons in Hnd as [Hx Hnd].
  rewrite filter_cons. destruct (decide (f x = y)) as [E|E]; [|by apply IH].
  destruct (filter (fun x => f x = y) l) as [|x' l'] eqn:Hf; [simpl; lia|].
  exfalso. apply Hx.
  assert (x' ∈ filter (fun x => f x = y) l) as Hin by (rewrite Hf; left).
  apply list_elem_of_filter in Hin as [E' Hin].
  rewrite E, <- E'. apply list_elem_of_fmap. eauto.
Qed.

(** C10. Within one run the recall scraper deduplicates payloads by their
    raw recall number before it normalizes them: a payload whose number
    (the empty string when the key is missing) is in the set of seen
    numbers is skipped with no effect at all; any other payload is
    normalized, handed to the store and counted, and its number enters the
    set. So a run always returns, no two of its upserts carry the same
    source id, and at most one of them is a payload without recall
    number. *)
Theorem recalls_deduplicated_by_number (pyfloat : Type)
    (server : nat -> string -> Z -> Z -> FsisRecalls.response)
    (max_per_query : Z) (db : Conn pyfloat) :
  (forall (st : FsisRecalls.world (pyfloat := pyfloat)) (recall : gmap string string),
      dict_get recall "recall_number" EmptyString ∈ FsisRecalls.seen_ids st ->
      FsisRecalls.process_recall st recall = st)
  /\ (forall (st : FsisRecalls.world (pyfloat := pyfloat)) (recall : gmap string string),
        dict_get recall "recall_number" EmptyString ∉ FsisRecalls.seen_ids st ->
        FsisRecalls.trace (FsisRecalls.process_recall st recall)
        = FsisRecalls.trace st
          ++ [FsisRecalls.Execute (FsisRecalls.recall_to_violation recall)]
        /\ FsisRecalls.total_inserted (FsisRecalls.process_recall st recall)
           = S (FsisRecalls.total_inserted st))
  /\ (forall (st : FsisRecalls.world (pyfloat := pyfloat)) (recall : gmap string string),
        recall !! "recall_number" = None ->
        EmptyString ∈ FsisRecalls.seen_ids (FsisRecalls.process_recall st recall))
  /\ (exists st,
        FsisRecalls.scrape_fsis_recalls server max_per_query db
        = Some (FsisRecalls.total_inserted st, st)
        /\ NoDup (map source_id (recalls_upserted (FsisRecalls.trace st)))
        /\ (length (filter (fun v => source_id v = Some (fda_id EmptyString))
                      (recalls_upserted (FsisRecalls.trace st))) <= 1)%nat).
Proof.
  split; [apply process_recall_seen|].
  split; [intros st recall H; by rewrite process_recall_fresh by done|].
  split.
  { intros st recall H.
    pose proof (process_recall_records st recall) as Hin.
    unfold dict_get in Hin. by rewrite H in Hin. }
  destruct (scrape_fsis_recalls_ok server max_per_query db)
    as (st & E & _ & nums & Hids & Hnd & _).
  exists st. split; [done|].
  assert (NoDup (map source_id (recalls_upserted (FsisRecalls.trace st)))) as Hnd'.
  { rewrite Hids.
    assert (Inj (=) (=) (fun n => Some (fda_id n))) as Hinj
      by (intros a b H; apply fda_id_inj; congruence).
    by apply (NoDup_fmap_2 _). }
  split; [done|]. by apply NoDup_filter_le_1.
Qed.

Lemma recalls_deduplicated_by_number_witness :
  let st1 := FsisRecalls.process_recall (fresh_recall_run (@init_db unit)) ∅ in
  FsisRecalls.trace st1 = [FsisRecalls.Execute (FsisRecalls.recall_to_violation ∅)]
  /\ EmptyString ∈ FsisRecalls.seen_ids st1
  /\ FsisRecalls.process_recall st1 ∅ = st1.
Proof.
  intros st1.
  destruct (recalls_deduplicated_by_number unit short_page_server 100 init_db)
    as (Hseen & Hfresh & Hmissing & _).
  split; [|split].
  - apply (Hfresh (fresh_recall_run init_db) ∅). vm_compute. intros H. discriminate H.
  - apply Hmissing. reflexivity.
  - apply Hseen. vm_compute. reflexivity.
Defined.

(** ** The submit/poll/paginate fetcher *)

Section EpaFacts.
Context {pyfloat : Type} (server : nat -> EpaEcho.request -> EpaEcho.response).
Implicit Types (w : EpaEcho.world (pyfloat := pyfloat)).

Import EpaEcho.









End EpaFacts.




(** ** The orchestrator *)

Section MainFacts.
Context {World : Type}.
Variable seed_database : World -> nat * World.
Variables scrape_fsis_recalls scrape_epa_echo : Z -> World -> result nat * World.

Import Scrape.




End MainFacts.



(** ** Runs that differ in the table only *)

Section FsisSameRun.
Context {pyfloat : Type} (server : nat -> string -> Z -> Z -> FsisRecalls.response).
Implicit Types (a b : FsisRecalls.world (pyfloat := pyfloat)).

Import FsisRecalls.

Lemma same_recall_run_emit a b e :
  same_recall_run a b -> same_recall_run (emit e a) (emit e b).
Proof. intros (Hs & Ht & Htr & Hr). unfold emit. repeat split; simpl; congruence. Qed.

Lemma same_recall_run_process a b recall :
  same_recall_run a b ->
  same_recall_run (process_recall a recall) (process_recall b recall).
Proof.
  intros (Hs & Ht & Htr & Hr). unfold process_recall. rewrite Hs.
  destruct (bool_decide _); [done|].
  repeat split; simpl; congruence.
Qed.

Lemma same_recall_run_page results a b :
  same_recall_run a b ->
  same_recall_run (fold_left process_recall results a) (fold_left process_recall results b).
Proof.
  revert a b. induction results as [|recall results IH]; intros a b H; simpl; [done|].
  by apply IH, same_recall_run_process.
Qed.

Lemma same_recall_run_fetch query limit skip a b :
  same_recall_run a b ->
  fst (fetch_recalls server query limit skip a) = fst (fetch_recalls server query limit skip b)
  /\ same_recall_run (snd (fetch_recalls server query limit skip a))
                     (snd (fetch_recalls server query limit skip b)).
Proof.
  intros (Hs & Ht & Htr & Hr). unfold fetch_recalls. rewrite Hr.
  destruct (server _ _ _ _); simpl; (split; [done|]);
    repeat split; simpl; congruence.
Qed.

Lemma same_recall_run_paginate fuel query max_per_query skip a b a' b' :
  same_recall_run a b ->
  paginate server fuel query max_per_query skip a = Some a' ->
  paginate server fuel query max_per_query skip b = Some b' ->
  same_recall_run a' b'.
Proof.
  revert skip a b. induction fuel as [|fuel IH]; intros skip a b Hsame; simpl.
  - destruct (skip <? max_per_query); [discriminate|]. by intros [= <-] [= <-].
  - destruct (skip <? max_per_query); [|by intros [= <-] [= <-]].
    destruct (same_recall_run_fetch query 100 skip a b Hsame) as [Hres Hsame1].
    destruct (fetch_recalls server query 100 skip a) as [results a1].
    destruct (fetch_recalls server query 100 skip b) as [results' b1].
    simpl in Hres, Hsame1. subst results'.
    destruct results as [|recall results]; [by intros [= <-] [= <-]|].
    pose proof (same_recall_run_page (recall :: results) a1 b1 Hsame1) as Hsame2.
    destruct (Z.of_nat (length (recall :: results)) <? 100); [by intros [= <-] [= <-]|].
    apply IH. by apply same_recall_run_emit.
Qed.

Lemma same_recall_run_query max_per_query query a b a' b' :
  same_recall_run a b ->
  scrape_query server max_per_query (Some a) query = Some a' ->
  scrape_query server max_per_query (Some b) query = Some b' ->
  same_recall_run a' b'.
Proof.
  intros Hsame. unfold scrape_query. simpl.
  destruct (paginate server _ query max_per_query 0 a) as [a1|] eqn:Ea; [|discriminate].
  destruct (paginate server _ query max_per_query 0 b) as [b1|] eqn:Eb; [|discriminate].
  simpl. intros [= <-] [= <-].
  do 2 apply same_recall_run_emit.
  by apply (same_recall_run_paginate _ _ _ _ _ _ _ _ Hsame Ea Eb).
Qed.

Lemma scrape_query_None max_per_query query :
  scrape_query (pyfloat := pyfloat) server max_per_query None query = None.
Proof. reflexivity. Qed.

Lemma fold_scrape_query_None max_per_query queries :
  fold_left (scrape_query (pyfloat := pyfloat) server max_per_query) queries None = None.
Proof. induction queries as [|q queries IH]; [done|]. cbn [fold_left]. by rewrite scrape_query_None. Qed.

Lemma same_recall_run_queries max_per_query queries a b a' b' :
  same_recall_run a b ->
  fold_left (scrape_query server max_per_query) queries (Some a) = Some a' ->
  fold_left (scrape_query server max_per_query) queries (Some b) = Some b' ->
  same_recall_run a' b'.
Proof.
  revert a b. induction queries as [|query queries IH]; intros a b Hsame; cbn [fold_left].
  - by intros [= <-] [= <-].
  - destruct (scrape_query server max_per_query (Some a) query) as [a1|] eqn:Ea;
      [|by rewrite fold_scrape_query_None].
    destruct (scrape_query server max_per_query (Some b) query) as [b1|] eqn:Eb;
      [|by rewrite fold_scrape_query_None].
    apply IH. by apply (same_recall_run_query _ _ _ _ _ _ Hsame Ea Eb).
Qed.

(** The upserts of a run of the recall scraper do not depend on the table
    it starts from. *)
Lemma scrape_fsis_recalls_same_upserts max_per_query (db db' : Conn pyfloat) n n' st st' :
  scrape_fsis_recalls server max_per_query db = Some (n, st) ->
  scrape_fsis_recalls server max_per_query db' = Some (n', st') ->
  recalls_upserted (trace st) = recalls_upserted (trace st').
Proof.
  unfold scrape_fsis_recalls.
  destruct (fold_left _ SEARCH_QUERIES (Some (mkWorld db ∅ 0%nat [] 0%nat)))
    as [a|] eqn:Ea; [|discriminate].
  destruct (fold_left _ SEARCH_QUERIES (Some (mkWorld db' ∅ 0%nat [] 0%nat)))
    as [b|] eqn:Eb; [|discriminate].
  simpl. intros [= _ <-] [= _ <-].
  assert (same_recall_run a b) as (_ & _ & Htr & _).
  { eapply same_recall_run_queries; [|exact Ea|exact Eb]. by repeat split. }
  simpl. by rewrite Htr.
Qed.

End FsisSameRun.

Section EpaRun.
Context {pyfloat : Type} (float_of_str : string -> option pyfloat)
        (server : nat -> EpaEcho.request -> EpaEcho.response).
Implicit Types (w a b : EpaEcho.world (pyfloat := pyfloat)) (db : Conn pyfloat).

Import EpaEcho.

Lemma facilities_upserted_snoc (tr : list (event pyfloat)) e :
  facilities_upserted (tr ++ [e]) = facilities_upserted tr ++ facilities_upserted [e].
Proof. unfold facilities_upserted. by rewrite omap_app. Qed.

Lemma network_only_refl w : network_only w w.
Proof. done. Qed.

Lemma network_only_trans w1 w2 w3 :
  network_only w1 w2 -> network_only w2 w3 -> network_only w1 w3.
Proof. intros (? & ? & ?) (? & ? & ?). repeat split; congruence. Qed.

Lemma network_only_emit w e :
  facilities_upserted [e] = [] -> network_only w (emit e w).
Proof.
  intros He. repeat split. simpl. by rewrite facilities_upserted_snoc, He, app_nil_r.
Qed.

Lemma network_only_http_get r w : network_only w (snd (http_get server r w)).
Proof.
  repeat split. simpl. by rewrite facilities_upserted_snoc, app_nil_r.
Qed.

Lemma network_only_poll n sic_code results w :
  network_only w (snd (poll server n sic_code results w)).
Proof.
  revert results w. induction n as [|n IH]; intros results w; cbn [poll];
    destruct (is_working results); try apply network_only_refl.
  pose proof (network_only_http_get (get_facilities sic_code) (sleep 5 w)) as Hget.
  destruct (http_get server (get_facilities sic_code) (sleep 5 w)) as [resp w1].
  assert (network_only w w1) as Hw1
    by (apply (network_only_trans w (sleep 5 w) w1);
        [by apply network_only_emit|exact Hget]).
  destruct resp; try (eapply network_only_trans; [exact Hw1|apply IH]).
  exact Hw1.
Qed.

Lemma network_only_fetch_page n qid page all_facilities w :
  network_only w (snd (fetch_page server n qid page all_facilities w)).
Proof.
  revert w. induction n as [|n IH]; intros w; cbn [fetch_page];
    [apply network_only_refl|].
  pose proof (network_only_http_get (get_qid qid page) w) as Hget.
  destruct (http_get server (get_qid qid page) w) as [resp w1]. simpl in Hget.
  assert (forall seconds,
            network_only w (snd (fetch_page server n qid page all_facilities
                                   (sleep seconds w1)))) as Hretry.
  { intros seconds. eapply network_only_trans; [exact Hget|].
    eapply network_only_trans; [by apply (network_only_emit w1 (Sleep seconds))|apply IH]. }
  destruct resp as [| | |page_results]; [apply Hretry..|].
  destruct (is_working page_results); [apply Hretry|done].
Qed.

Lemma network_only_fetch_pages qid pages all_facilities w :
  network_only w
    (snd (fold_left (fetch_pages_step server qid) pages (all_facilities, w))).
Proof.
  revert all_facilities w.
  induction pages as [|page pages IH]; intros all_facilities w; cbn [fold_left];
    [apply network_only_refl|].
  unfold fetch_pages_step at 2.
  pose proof (network_only_fetch_page 6 qid page all_facilities w) as Hpage.
  destruct (fetch_page server 6 qid page all_facilities w) as [all' w1]. simpl in Hpage.
  eapply network_only_trans; [exact Hpage|].
  eapply network_only_trans; [by apply (network_only_emit w1 (Sleep 1))|apply IH].
Qed.

Lemma network_only_fetch_facilities sic_code max_facilities w :
  network_only w (snd (fetch_facilities_for_sic server sic_code max_facilities w)).
Proof.
  unfold fetch_facilities_for_sic.
  pose proof (network_only_http_get (get_facilities sic_code) w) as Hget.
  destruct (http_get server (get_facilities sic_code) w) as [resp w1]. simpl in Hget.
  destruct resp as [| | |results0]; [done..|].
  pose proof (network_only_poll 12 sic_code results0 w1) as Hpoll.
  destruct (poll server 12 sic_code results0 w1) as [[results|e] w2]; simpl in Hpoll.
  2: by eapply network_only_trans.
  assert (network_only w w2) as Hw2 by (by eapply network_only_trans).
  destruct (query_rows results) as [total_rows|e]; [|done].
  destruct ((total_rows =? 0) || no_qid results); [done|].
  match goal with |- context [fold_left ?f ?pages (?acc, w2)] =>
    pose proof (network_only_fetch_pages (query_id results)
                  pages acc w2) as Hpages;
    destruct (fold_left f pages (acc, w2)) as [all_facilities w3] end.
  simpl in *. by eapply network_only_trans.
Qed.

Lemma facility_run_ok_network db w w' :
  network_only w w' -> facility_run_ok db w -> facility_run_ok db w'.
Proof.
  intros (Hc & _ & Ht) (Hconn & Hids). unfold facility_run_ok.
  by rewrite Hc, Ht.
Qed.

Lemma facility_run_ok_process db sic_code w facility :
  facility_run_ok db w ->
  facility_run_ok db (process_facility float_of_str sic_code w facility).
Proof.
  intros (Hconn & Hids). unfold process_facility.
  destruct (facility_to_violation float_of_str facility sic_code) as [v|] eqn:E; [|done].
  destruct (facility_kept float_of_str facility sic_code v E) as (_ & _ & Hid).
  split; cbn [conn trace snd upsert_violation]; rewrite facilities_upserted_snoc;
    change (facilities_upserted [Execute v]) with [v].
  - by rewrite upsert_all_snoc, <- Hconn.
  - apply Forall_app. split; [done|]. constructor; [by rewrite Hid|constructor].
Qed.

Lemma facility_run_ok_facilities db sic_code facilities w :
  facility_run_ok db w ->
  facility_run_ok db (fold_left (process_facility float_of_str sic_code) facilities w).
Proof.
  revert w. induction facilities as [|facility facilities IH]; intros w H; simpl; [done|].
  by apply IH, facility_run_ok_process.
Qed.

Lemma facility_run_ok_sic db max_per_sic acc sic_code :
  facility_run_ok db (snd acc) ->
  facility_run_ok db (snd (scrape_sic float_of_str server max_per_sic acc sic_code)).
Proof.
  destruct acc as [[[]|e] w]; simpl; [|done]. intros Hok.
  pose proof (network_only_fetch_facilities sic_code max_per_sic w) as Hnet.
  destruct (fetch_facilities_for_sic server sic_code max_per_sic w) as [[facilities|e] w1];
    simpl in *.
  - eapply facility_run_ok_network; [by apply network_only_emit|].
    eapply facility_run_ok_network; [by apply network_only_emit|].
    apply facility_run_ok_facilities. by eapply facility_run_ok_network.
  - by eapply facility_run_ok_network.
Qed.

Lemma facility_run_ok_codes db max_per_sic codes acc :
  facility_run_ok db (snd acc) ->
  facility_run_ok db (snd (fold_left (scrape_sic float_of_str server max_per_sic) codes acc)).
Proof.
  revert acc. induction codes as [|sic_code codes IH]; intros acc H; cbn [fold_left]; [done|].
  by apply IH, facility_run_ok_sic.
Qed.

(** The final state of the facility scraper satisfies the invariant,
    whether it returns or raises. *)
Lemma scrape_epa_echo_ok max_per_sic db :
  facility_run_ok db (snd (scrape_epa_echo float_of_str server max_per_sic db)).
Proof.
  unfold scrape_epa_echo.
  pose proof (facility_run_ok_codes db max_per_sic CAFO_SIC_CODES
                (Return tt, mkWorld db 0%nat [] 0%nat)) as H.
  destruct (fold_left _ CAFO_SIC_CODES _) as [[[]|e] w]; simpl in *.
  - eapply facility_run_ok_network; [by apply network_only_emit|].
    apply H. split; [done|constructor].
  - apply H. split; [done|constructor].
Qed.

End EpaRun.

Section EpaSameRun.
Context {pyfloat : Type} (float_of_str : string -> option pyfloat)
        (server : nat -> EpaEcho.request -> EpaEcho.response).
Implicit Types (a b : EpaEcho.world (pyfloat := pyfloat)).

Import EpaEcho.





Lemma fetch_pages_step_eq qid page all_facilities a :
  fetch_pages_step server qid (all_facilities, a) page
  = (fst (fetch_page server 6 qid page all_facilities a),
     sleep 1 (snd (fetch_page server 6 qid page all_facilities a))).
Proof.
  unfold fetch_pages_step. by destruct (fetch_page server 6 qid page all_facilities a).
Qed.








End EpaSameRun.

(** ** The pipeline, run twice *)

Section Pipeline.
Context {pyfloat : Type} (float_of_str : string -> option pyfloat)
        (recall_server : nat -> string -> Z -> Z -> FsisRecalls.response)
        (facility_server : nat -> EpaEcho.request -> EpaEcho.response).


(** Every record the recall scraper hands to the store carries a source
    id. *)
Lemma recall_run_ok_source_ids (db : Conn pyfloat) st :
  recall_run_ok db st ->
  Forall (fun r => is_Some (source_id r)) (recalls_upserted (FsisRecalls.trace st)).
Proof.
  intros (_ & nums & Hids & _). apply Forall_forall. intros r Hr.
  assert (source_id r ∈ map source_id (recalls_upserted (FsisRecalls.trace st))) as Hin
    by (apply list_elem_of_fmap; eauto).
  rewrite Hids in Hin. apply list_elem_of_fmap in Hin as (n & -> & _). by eexists.
Qed.


End Pipeline.




(** ** Worked examples *)

(** Date normalization of the recall source: eight digits are rewritten,
    any other length is dropped. *)
Example recall_date_20230615 :
  date (FsisRecalls.recall_to_violation (pyfloat := unit)
          {[ "recall_initiation_date" := "20230615" ]}) = Some "2023-06-15".
Proof. reflexivity. Qed.

Example recall_date_wrong_length :
  date (FsisRecalls.recall_to_violation (pyfloat := unit)
          {[ "recall_initiation_date" := "202306" ]}) = None.
Proof. reflexivity. Qed.

(** The same raw identifier gets a different source id from each source. *)
Example natural_key_prefixes :
  source_id (FsisRecalls.recall_to_violation (pyfloat := unit) {[ "recall_number" := "123" ]})
  = Some "FDA-123"
  /\ (exists v, EpaEcho.facility_to_violation no_float
                  {[ "SourceID" := "123"; "CWPSNCStatus" := "S" ]} "0211" = Some v
                /\ source_id v = Some "ECHO-CWA-123").
Proof. split; [reflexivity|]. eexists. split; vm_compute; reflexivity. Qed.

(** A state of two characters is kept, any other is dropped. *)
Example recall_state_kept :
  state (FsisRecalls.recall_to_violation (pyfloat := unit) {[ "state" := "IA" ]}) = Some "IA"
  /\ state (FsisRecalls.recall_to_violation (pyfloat := unit) {[ "state" := "Iowa" ]}) = None.
Proof. split; reflexivity. Qed.

(** A compliance status that merely mentions the word is rated [Medium]. *)
Example facility_status_mentions_violation :
  exists v, EpaEcho.facility_to_violation no_float
              {[ "CWPComplianceStatus" := "No Violation Identified" ]} "0213" = Some v
            /\ severity v = Some "Medium"
            /\ description v
               = Some "CAFO Type: Hog Operations. Compliance: No Violation Identified".
Proof. eexists. split; [vm_compute; reflexivity|]. split; reflexivity. Qed.

(** [int] on strings, as the facility normalizer uses it. *)
Example int_of_str_examples :
  int_of_str " 1_2 " = Some 12 /\ int_of_str "1.5" = None
  /\ int_of_str "-07" = Some (-7) /\ int_of_str EmptyString = None.
Proof. repeat split. Qed.

(** A whole run of the recall scraper against a server whose every page
    is one payload without recall number: twelve page requests, a single
    upsert. *)
Example recall_run_single_upsert :
  exists st,
    FsisRecalls.scrape_fsis_recalls short_page_server 100 (@init_db unit) = Some (1%nat, st)
    /\ length (page_requests (FsisRecalls.trace st)) = 12%nat
    /\ length (FsisRecalls.conn st) = 1%nat.
Proof. eexists. split; [vm_compute; reflexivity|]. split; reflexivity. Qed.

(** * Further properties of the code *)

(** ** The store as a map from natural keys to rows *)

Section StoreView.
Context {pyfloat : Type}.
Implicit Types (t conn : Conn pyfloat) (r row : Violation pyfloat).

Lemma find_snoc {A : Type} (f : A -> bool) (l : list A) (x : A) :
  find f (l ++ [x]) = match find f l with
                      | Some y => Some y
                      | None => if f x then Some x else None
                      end.
Proof.
  induction l as [|y l IH]; simpl; [done|]. by destruct (f y).
Qed.

Lemma stored_None_no_key t src sid row :
  stored t src sid = None -> row ∈ t -> key row <> (Some src, Some sid).
Proof.
  unfold stored. intros Hnone Hin Hk.
  apply list_elem_of_In in Hin.
  pose proof (find_none _ _ Hnone row Hin) as H. simpl in H.
  by rewrite bool_decide_eq_true_2 in H.
Qed.

Lemma stored_insert_or_ignore t r src sid :
  stored (insert_or_ignore t r) src sid
  = match stored t src sid with
    | Some row => Some row
    | None => if storable_as src sid r then Some r else None
    end.
Proof.
  destruct (insert_or_ignore_cases t r) as [(-> & Hn & _)|(-> & Hwhy)].
  - unfold stored. rewrite find_snoc.
    destruct (find _ t); [done|]. unfold storable_as.
    apply not_null_ok_spec in Hn as [Hf _].
    by rewrite (bool_decide_eq_true_2 _ Hf), andb_true_r.
  - destruct (stored t src sid) as [row|] eqn:E; [done|].
    destruct (storable_as src sid r) eqn:Es; [|done]. exfalso.
    apply andb_true_iff in Es as [Hk Hf].
    apply bool_decide_eq_true in Hk, Hf.
    destruct Hwhy as [Hn|(row & Hin & Hc)].
    + assert (not_null_ok r = true); [|congruence].
      apply not_null_ok_spec. split; [done|].
      unfold key in Hk. injection Hk as -> _. by eexists.
    + apply collides_key in Hc as (Hk' & _).
      apply (stored_None_no_key t src sid row E Hin). congruence.
Qed.

End StoreView.

(** X1. An upsert never changes, removes or moves a stored row: the new
    table is the old one with at most one row added at its end; a run of
    upserts adds at most as many rows as it has records. *)
Theorem upsert_only_appends (pyfloat : Type) (conn : Conn pyfloat)
    (r : Violation pyfloat) (rs : list (Violation pyfloat)) :
  (exists rows, snd (upsert_violation conn r) = conn ++ rows /\ (length rows <= 1)%nat)
  /\ (exists rows, upsert_all conn rs = conn ++ rows /\ (length rows <= length rs)%nat).
Proof.
  split.
  - simpl. destruct (insert_or_ignore_cases conn r) as [(-> & _)|(-> & _)].
    + exists [r]. split; [done|simpl; lia].
    + exists []. split; [by rewrite app_nil_r|simpl; lia].
  - revert conn. induction rs as [|r' rs IH]; intros conn.
    + exists []. split; [by rewrite app_nil_r|done].
    + destruct (IH (insert_or_ignore conn r')) as (rows & E & Hlen).
      unfold upsert_all in *. simpl. rewrite E.
      destruct (insert_or_ignore_cases conn r') as [(-> & _)|(-> & _)].
      * exists (r' :: rows). split; [by rewrite <- app_assoc|simpl; lia].
      * exists rows. split; [done|simpl; lia].
Qed.

(** X2. Seen as a map from (source, source id) to rows, the store is
    insert-if-absent and the first writer wins: after an upsert a key holds
    the row it held before, if any, and else the new record when that one
    carries the key and a facility name; after a run from the empty table a
    key holds the first such record of the run. *)
Theorem upsert_first_writer_wins (pyfloat : Type) (conn : Conn pyfloat)
    (r : Violation pyfloat) (rs : list (Violation pyfloat)) (src sid : string) :
  stored (snd (upsert_violation conn r)) src sid
  = match stored conn src sid with
    | Some row => Some row
    | None => if storable_as src sid r then Some r else None
    end
  /\ stored (upsert_all init_db rs) src sid = find (storable_as src sid) rs.
Proof.
  split; [apply stored_insert_or_ignore|].
  assert (forall t, stored (upsert_all t rs) src sid
                    = match stored t src sid with
                      | Some row => Some row
                      | None => find (storable_as src sid) rs
                      end) as H; [|apply (H [])].
  induction rs as [|r' rs IH]; intros t.
  - simpl. by destruct (stored t src sid).
  - unfold upsert_all in *. simpl. rewrite IH, stored_insert_or_ignore.
    destruct (stored t src sid); [done|]. by destruct (storable_as src sid r').
Qed.

(** X3. Every row of a table built by upserts from the empty one is a
    record of the run and has a facility name and a source: a record that
    lacks either is dropped without an error. *)
Theorem stored_rows_have_required_columns (pyfloat : Type)
    (rs : list (Violation pyfloat)) :
  Forall (fun row => row ∈ rs /\ is_Some (facility_name row) /\ is_Some (source row))
         (upsert_all init_db rs).
Proof.
  assert (forall t : Conn pyfloat,
             Forall (fun row => is_Some (facility_name row) /\ is_Some (source row)) t ->
             Forall (fun row => (row ∈ t \/ row ∈ rs)
                                /\ is_Some (facility_name row) /\ is_Some (source row))
                    (upsert_all t rs)) as H.
  { induction rs as [|r rs IH]; intros t Ht.
    - simpl. apply Forall_forall. intros row Hin.
      split; [by left|]. by apply (proj1 (Forall_forall _ _) Ht).
    - unfold upsert_all in *. simpl.
      eapply Forall_impl; [apply IH|].
      + destruct (insert_or_ignore_cases t r) as [(-> & Hn & _)|(-> & _)]; [|done].
        apply Forall_app. split; [done|]. constructor; [|constructor].
        by apply not_null_ok_spec.
      + intros row ([Hin|Hin] & Hcols); (split; [|done]).
        * destruct (insert_or_ignore_cases t r) as [(E & _)|(E & _)]; rewrite E in Hin.
          -- apply elem_of_app in Hin as [Hin|Hin]; [by left|right].
             apply list_elem_of_singleton in Hin. subst. left.
          -- by left.
        * right. by right. }
  eapply Forall_impl; [apply (H init_db); constructor|].
  intros row ([Hin|Hin] & Hcols); [by apply elem_of_nil in Hin|done].
Qed.

(** ** More on the recall normalizer *)

(** X4. The description of a recall record is the assembled description
    when that has at most 2000 characters, and else its first 1997
    characters followed by three dots, 2000 characters in all; it is
    never absent. *)
Theorem recall_description_truncation (pyfloat : Type) (recall : gmap string string) :
  let assembled := assembled_description recall in
  exists d,
    description (FsisRecalls.recall_to_violation (pyfloat := pyfloat) recall) = Some d
    /\ len d <= 2000
    /\ ((len assembled <= 2000 /\ d = assembled)
        \/ (2000 < len assembled /\ d = slice_to 1997 assembled +:+ "..."
            /\ len d = 2000)).
Proof.
  intros assembled. rewrite recall_description. cbv zeta. fold assembled.
  eexists. split; [reflexivity|].
  destruct (2000 <? len assembled) eqn:Hlen.
  - apply Z.ltb_lt in Hlen.
    assert (len (slice_to 1997 assembled +:+ "...") = 2000) as Hcut.
    { unfold len in *. rewrite length_append, length_slice_to by lia. reflexivity. }
    split; [lia|]. right. done.
  - apply Z.ltb_ge in Hlen. split; [done|]. left. done.
Qed.

(** X5. The recall normalizer keeps a date exactly when the raw initiation
    date has eight characters. The date kept has ten characters, a dash in
    the fifth and in the eighth place, and the raw characters in order in
    the other places; it is of the form YYYY-MM-DD when the raw date is
    made of digits. *)
Theorem recall_date_by_position (pyfloat : Type) (recall : gmap string string) :
  let raw := dict_get recall "recall_initiation_date" EmptyString in
  let v := FsisRecalls.recall_to_violation (pyfloat := pyfloat) recall in
  (String.length raw <> 8%nat -> date v = None)
  /\ (String.length raw = 8%nat ->
      exists d,
        date v = Some d
        /\ String.length d = 10%nat
        /\ char_at 4 d = "-" /\ char_at 7 d = "-"
        /\ slice_to 4 d +:+ slice 5 7 d +:+ slice 8 10 d = raw
        /\ (all_digits raw = true -> is_iso_date d = true)).
Proof.
  intros raw v. subst v. rewrite recall_date. cbv zeta. fold raw. split.
  - intros Hlen. destruct (truthy raw && (len raw =? 8)) eqn:E; [|done].
    apply andb_true_iff in E as [_ E]. apply Z.eqb_eq in E. unfold len in E. lia.
  - intros Hlen.
    destruct raw as [|c1 [|c2 [|c3 [|c4 [|c5 [|c6 [|c7 [|c8 [|c9 s]]]]]]]]];
      try discriminate.
    eexists. split; [reflexivity|]. repeat (split; [reflexivity|]).
    unfold all_digits, is_iso_date. simpl.
    intros H. rewrite !andb_true_r in *. by rewrite !andb_true_iff in *.
Qed.

Lemma recall_date_by_position_witness :
  date (FsisRecalls.recall_to_violation (pyfloat := unit) dated_recall) = Some "2023-06-15"
  /\ is_iso_date "2023-06-15" = true
  /\ date (FsisRecalls.recall_to_violation (pyfloat := unit)
             {[ "recall_initiation_date" := "2023-06-15" ]}) = None.
Proof.
  destruct (recall_date_by_position unit dated_recall) as [_ H].
  destruct H as (d & Hd & _ & _ & _ & _ & Hiso); [reflexivity|].
  assert (d = "2023-06-15") as -> by (vm_compute in Hd; congruence).
  split; [exact Hd|]. split; [apply Hiso; reflexivity|].
  apply (recall_date_by_position unit {[ "recall_initiation_date" := "2023-06-15" ]}).
  vm_compute. discriminate.
Defined.

(** X6. Every recall record can be stored: it has a facility name, a
    source and a source id. Two recall records collide in the store exactly
    when their raw recall numbers are equal, a missing number counting as
    the empty one. *)
Theorem recall_records_keyed_by_number (pyfloat : Type) (r1 r2 : gmap string string) :
  not_null_ok (FsisRecalls.recall_to_violation (pyfloat := pyfloat) r1) = true
  /\ is_Some (source_id (FsisRecalls.recall_to_violation (pyfloat := pyfloat) r1))
  /\ collides (FsisRecalls.recall_to_violation (pyfloat := pyfloat) r1)
              (FsisRecalls.recall_to_violation (pyfloat := pyfloat) r2)
     = bool_decide (dict_get r1 "recall_number" EmptyString
                    = dict_get r2 "recall_number" EmptyString).
Proof.
  split; [reflexivity|]. split; [by eexists|].
  unfold collides. rewrite !recall_source_id.
  change (source (FsisRecalls.recall_to_violation r1))
    with (Some "USDA FSIS (via openFDA)" : option string).
  change (source (FsisRecalls.recall_to_violation r2))
    with (Some "USDA FSIS (via openFDA)" : option string).
  cbn beta iota. rewrite String.eqb_refl. cbn [andb].
  fold (fda_id (dict_get r1 "recall_number" EmptyString)).
  fold (fda_id (dict_get r2 "recall_number" EmptyString)).
  set (n1 := dict_get r1 "recall_number" EmptyString).
  set (n2 := dict_get r2 "recall_number" EmptyString).
  destruct (decide (n1 = n2)) as [->|Hne].
  - by rewrite String.eqb_refl, bool_decide_eq_true_2.
  - rewrite bool_decide_eq_false_2 by done.
    apply String.eqb_neq. intros H. apply Hne. by apply fda_id_inj.
Qed.

(** ** More on the facility normalizer *)

Section FacilityColumns.
Context {pyfloat : Type} (float_of_str : string -> option pyfloat).

Lemma facility_kept_columns (facility : gmap string string) (sic_code : string) v :
  EpaEcho.facility_to_violation float_of_str facility sic_code = Some v ->
  facility_name v = Some (dict_get facility "CWPName" "Unknown")
  /\ source v = Some "EPA ECHO"
  /\ (latitude v, longitude v)
     = match EpaEcho.float_if float_of_str (facility !! "FacLat") with
       | None => (None, None)
       | Some lat =>
           match EpaEcho.float_if float_of_str (facility !! "FacLong") with
           | None => (None, None)
           | Some lon => (lat, lon)
           end
       end.
Proof.
  unfold EpaEcho.facility_to_violation. cbv zeta.
  destruct (match EpaEcho.float_if float_of_str (facility !! "FacLat") with
            | Some _ => _ | None => _ end) as [lat lon].
  destruct (_ && _ && _); [discriminate|].
  intros [= <-]. done.
Qed.

End FacilityColumns.

(** X7. Records of the two sources never collide in the store: a recall
    record and a facility record differ in their source, whatever the raw
    identifiers are. *)
Theorem sources_never_collide (pyfloat : Type) (float_of_str : string -> option pyfloat)
    (recall facility : gmap string string) (sic_code : string) (v : Violation pyfloat) :
  EpaEcho.facility_to_violation float_of_str facility sic_code = Some v ->
  collides (FsisRecalls.recall_to_violation recall) v = false
  /\ collides v (FsisRecalls.recall_to_violation recall) = false
  /\ key v <> key (FsisRecalls.recall_to_violation (pyfloat := pyfloat) recall).
Proof.
  intros E.
  destruct (facility_kept_columns float_of_str facility sic_code v E) as (_ & Hs & _).
  unfold collides, key. rewrite Hs.
  change (source (FsisRecalls.recall_to_violation recall))
    with (Some "USDA FSIS (via openFDA)" : option string).
  cbn beta iota.
  split; [by destruct (source_id v)|]. split; [by destruct (source_id v)|].
  discriminate.
Qed.

Lemma sources_never_collide_witness :
  exists v,
    EpaEcho.facility_to_violation no_float {[ "SourceID" := "123"; "CWPSNCStatus" := "S" ]}
      "0211" = Some v
    /\ collides (FsisRecalls.recall_to_violation {[ "recall_number" := "123" ]}) v = false.
Proof.
  eexists. split; [vm_compute; reflexivity|].
  eapply (sources_never_collide unit no_float {[ "recall_number" := "123" ]}
            {[ "SourceID" := "123"; "CWPSNCStatus" := "S" ]} "0211").
  vm_compute. reflexivity.
Defined.

(** X8. The facility normalizer drops a facility exactly when it has no
    quarter in noncompliance (a count that does not parse is taken as 0),
    no significant-noncompliance flag, no compliance status mentioning a
    violation and no last-penalty date. A facility that is kept is rated
    [High] when flagged, whatever its status says, else [Medium] when its
    status mentions a violation, else [Low]. *)
Theorem facility_drop_and_severity (pyfloat : Type)
    (float_of_str : string -> option pyfloat)
    (facility : gmap string string) (sic_code : string) :
  match EpaEcho.facility_to_violation float_of_str facility sic_code with
  | None =>
      quarters_in_noncompliance facility = 0 /\ snc_flag facility = false
      /\ violation_in_status facility = false /\ has_last_penalty_date facility = false
  | Some v =>
      (quarters_in_noncompliance facility <> 0 \/ snc_flag facility = true
       \/ violation_in_status facility = true \/ has_last_penalty_date facility = true)
      /\ severity v = Some (if snc_flag facility then "High"
                            else if violation_in_status facility then "Medium"
                            else "Low")
  end.
Proof.
  destruct (EpaEcho.facility_to_violation float_of_str facility sic_code) as [v|] eqn:E.
  - split; [|by apply (facility_kept float_of_str facility sic_code v E)].
    assert (EpaEcho.facility_to_violation float_of_str facility sic_code <> None) as Hkept
      by congruence.
    rewrite facility_dropped in Hkept.
    destruct (quarters_in_noncompliance facility =? 0) eqn:Hq;
      [|apply Z.eqb_neq in Hq; by left].
    destruct (snc_flag facility); [by right; left|].
    destruct (violation_in_status facility); [by right; right; left|].
    destruct (has_last_penalty_date facility); [by right; right; right|].
    by exfalso.
  - apply facility_dropped in E.
    rewrite !andb_true_iff, !negb_true_iff, Z.eqb_eq in E. tauto.
Qed.

(** X9. Two facility records collide in the store exactly when their raw
    [SourceID]s are equal, a missing one counting as the empty one: the
    industry code and every other field play no part. *)
Theorem facility_records_keyed_by_source_id (pyfloat : Type)
    (float_of_str : string -> option pyfloat)
    (f1 f2 : gmap string string) (sic1 sic2 : string) (v1 v2 : Violation pyfloat) :
  EpaEcho.facility_to_violation float_of_str f1 sic1 = Some v1 ->
  EpaEcho.facility_to_violation float_of_str f2 sic2 = Some v2 ->
  not_null_ok v1 = true
  /\ collides v1 v2
     = bool_decide (dict_get f1 "SourceID" EmptyString = dict_get f2 "SourceID" EmptyString).
Proof.
  intros E1 E2.
  destruct (facility_kept_columns float_of_str f1 sic1 v1 E1) as (Hn1 & Hs1 & _).
  destruct (facility_kept_columns float_of_str f2 sic2 v2 E2) as (_ & Hs2 & _).
  destruct (facility_kept float_of_str f1 sic1 v1 E1) as (_ & _ & Hid1).
  destruct (facility_kept float_of_str f2 sic2 v2 E2) as (_ & _ & Hid2).
  split.
  - apply not_null_ok_spec. rewrite Hn1, Hs1. split; by eexists.
  - unfold collides. rewrite Hs1, Hs2, Hid1, Hid2, String.eqb_refl. cbn [andb].
    set (n1 := dict_get f1 "SourceID" EmptyString).
    set (n2 := dict_get f2 "SourceID" EmptyString).
    destruct (decide (n1 = n2)) as [->|Hne].
    + by rewrite String.eqb_refl, bool_decide_eq_true_2.
    + rewrite bool_decide_eq_false_2 by done.
      apply String.eqb_neq. simpl. intros H. apply Hne. by injection H.
Qed.

Lemma facility_records_keyed_by_source_id_witness :
  exists v1 v2,
    EpaEcho.facility_to_violation no_float penalised_facility "0211" = Some v1
    /\ EpaEcho.facility_to_violation no_float renamed_facility "0213" = Some v2
    /\ collides v1 v2 = true.
Proof.
  eexists. eexists. split; [vm_compute; reflexivity|]. split; [vm_compute; reflexivity|].
  eapply (proj2 (facility_records_keyed_by_source_id unit no_float
                   penalised_facility renamed_facility "0211" "0213" _ _ _ _)).
  Unshelve. all: vm_compute; reflexivity.
Defined.

(** X10. Coordinates of a facility record: a latitude or longitude that is
    given and does not parse blanks both; when neither fails, each is the
    parsed value where one is given and absent where none is. *)
Theorem facility_coordinates (pyfloat : Type) (float_of_str : string -> option pyfloat)
    (facility : gmap string string) (sic_code : string) (v : Violation pyfloat) :
  EpaEcho.facility_to_violation float_of_str facility sic_code = Some v ->
  let given k := match facility !! k with
                 | Some s => if truthy s then Some s else None
                 | None => None
                 end in
  let fails k := match given k with
                 | Some s => bool_decide (float_of_str s = None)
                 | None => false
                 end in
  (fails "FacLat" || fails "FacLong" = true -> latitude v = None /\ longitude v = None)
  /\ (fails "FacLat" || fails "FacLong" = false ->
      latitude v = given "FacLat" ≫= float_of_str
      /\ longitude v = given "FacLong" ≫= float_of_str).
Proof.
  intros E given fails.
  destruct (facility_kept_columns float_of_str facility sic_code v E) as (_ & _ & Hll).
  subst fails given. cbv beta. unfold EpaEcho.float_if in Hll.
  destruct (facility !! "FacLat") as [lat|]; destruct (facility !! "FacLong") as [lon|];
    repeat match goal with
           | |- context [truthy ?s] => destruct (truthy s)
           | |- context [float_of_str ?s] => destruct (float_of_str s) eqn:?
           end;
    simpl in *; injection Hll as -> ->; split; intros H; try discriminate; done.
Qed.

Lemma facility_coordinates_witness :
  exists v,
    EpaEcho.facility_to_violation int_of_str half_located_facility "0211" = Some v
    /\ latitude v = None /\ longitude v = None.
Proof.
  eexists. split; [vm_compute; reflexivity|].
  eapply (proj1 (facility_coordinates Z int_of_str half_located_facility "0211" _ _)).
  reflexivity.
  Unshelve. vm_compute. reflexivity.
Defined.

(** ** More on the paginated recall fetcher *)

Section FsisMore.
Context {pyfloat : Type} (server : nat -> string -> Z -> Z -> FsisRecalls.response).
Implicit Types (st : FsisRecalls.world (pyfloat := pyfloat)) (db : Conn pyfloat).

Import FsisRecalls.

Lemma fetch_recalls_no_body query skip st :
  no_body (server (requests st) query 100 skip) ->
  fetch_recalls server query 100 skip st
  = ([], mkWorld (conn st) (seen_ids st) (total_inserted st)
                 (trace st ++ [Get query 100 skip]) (S (requests st))).
Proof.
  intros H. unfold fetch_recalls. change (Z.min 100 100) with 100. cbv zeta.
  by destruct (server (requests st) query 100 skip).
Qed.

(** A predicate kept by the three kinds of step of a run is kept by the
    run. *)
Lemma scrape_fsis_recalls_invariant (P : world (pyfloat := pyfloat) -> Prop)
    max_per_query db n st :
  (forall st e, recalls_upserted [e] = [] -> P st -> P (emit e st)) ->
  (forall st query limit skip, P st -> P (snd (fetch_recalls server query limit skip st))) ->
  (forall st recall, P st -> P (process_recall st recall)) ->
  P (mkWorld db ∅ 0%nat [] 0%nat) ->
  scrape_fsis_recalls server max_per_query db = Some (n, st) ->
  P st.
Proof.
  intros Hemit Hfetch Hprocess Hinit.
  assert (forall results st, P st -> P (fold_left process_recall results st)) as Hpage.
  { induction results as [|recall results IH]; intros st0 H; simpl; [done|].
    by apply IH, Hprocess. }
  assert (forall fuel query skip st st',
             P st -> paginate server fuel query max_per_query skip st = Some st' -> P st')
    as Hpaginate.
  { induction fuel as [|fuel IH]; intros query skip st0 st' H0; simpl.
    - destruct (skip <? max_per_query); [discriminate|]. by intros [= <-].
    - destruct (skip <? max_per_query); [|by intros [= <-]].
      pose proof (Hfetch st0 query 100 skip H0) as Hf.
      destruct (fetch_recalls server query 100 skip st0) as [results st1]. simpl in Hf.
      destruct results as [|recall results]; [by intros [= <-]|].
      pose proof (Hpage (recall :: results) st1 Hf) as Hp.
      destruct (Z.of_nat (length (recall :: results)) <? 100); [by intros [= <-]|].
      apply IH. by apply Hemit. }
  assert (forall queries st st',
             P st ->
             fold_left (scrape_query server max_per_query) queries (Some st) = Some st' ->
             P st') as Hqueries.
  { induction queries as [|query queries IH]; intros st0 st' H0; cbn [fold_left].
    - by intros [= <-].
    - destruct (scrape_query server max_per_query (Some st0) query) as [st1|] eqn:E;
        [|by rewrite fold_scrape_query_None].
      apply IH. unfold scrape_query in E. simpl in E.
      destruct (paginate server _ query max_per_query 0 st0) as [st2|] eqn:E2;
        [|discriminate].
      simpl in E. injection E as <-.
      do 2 (apply Hemit; [done|]). by apply (Hpaginate _ _ _ _ _ H0 E2). }
  unfold scrape_fsis_recalls.
  destruct (fold_left _ SEARCH_QUERIES _) as [st0|] eqn:E; [|discriminate].
  simpl. intros [= _ <-]. apply Hemit; [done|]. by apply (Hqueries _ _ _ Hinit E).
Qed.

Lemma recall_count_ok_run max_per_query db n st :
  scrape_fsis_recalls server max_per_query db = Some (n, st) -> recall_count_ok st.
Proof.
  apply scrape_fsis_recalls_invariant.
  - intros st0 e He [Ht Hs]. split; simpl; [|done].
    by rewrite recalls_upserted_snoc, He, app_nil_r.
  - intros st0 query limit skip [Ht Hs]. unfold fetch_recalls.
    destruct (server _ _ _ _); (split; simpl; [|done]);
      by rewrite recalls_upserted_snoc, app_nil_r.
  - intros st0 recall [Ht Hs].
    destruct (decide (dict_get recall "recall_number" EmptyString ∈ seen_ids st0)) as [H|H].
    + by rewrite process_recall_seen.
    + rewrite process_recall_fresh by done. split; simpl.
      * rewrite recalls_upserted_snoc, length_app, <- Ht. simpl. lia.
      * rewrite size_union by set_solver. rewrite size_singleton, Hs. lia.
  - split; [done|]. cbn [seen_ids total_inserted]. apply (size_empty (C := gset string)).
Qed.

End FsisMore.

(** X11. A page request that brings no JSON body (an HTTP error status,
    404 included, or any other failure) ends the pagination of its query
    and leaves the table, the seen numbers and the counter as they were;
    when every request fails the scraper still returns, with count 0, the
    table untouched and exactly one request made for each of the twelve
    queries, at offset 0. *)
Theorem failed_page_ends_query (pyfloat : Type)
    (server : nat -> string -> Z -> Z -> FsisRecalls.response)
    (max_per_query : Z) (db : Conn pyfloat) :
  (forall fuel query skip (st : FsisRecalls.world (pyfloat := pyfloat)),
      skip < max_per_query ->
      no_body (server (FsisRecalls.requests st) query 100 skip) ->
      FsisRecalls.paginate server (S fuel) query max_per_query skip st
      = Some (FsisRecalls.mkWorld (FsisRecalls.conn st) (FsisRecalls.seen_ids st)
                (FsisRecalls.total_inserted st)
                (FsisRecalls.trace st ++ [FsisRecalls.Get query 100 skip])
                (S (FsisRecalls.requests st))))
  /\ (0 < max_per_query ->
      (forall n query limit skip, no_body (server n query limit skip)) ->
      exists st,
        FsisRecalls.scrape_fsis_recalls server max_per_query db = Some (0%nat, st)
        /\ FsisRecalls.conn st = db
        /\ page_requests (FsisRecalls.trace st)
           = map (fun query => (query, 100, 0)) FsisRecalls.SEARCH_QUERIES).
Proof.
  split.
  - intros fuel query skip st Hlt Hfail. simpl.
    apply Z.ltb_lt in Hlt. rewrite Hlt.
    by rewrite (fetch_recalls_no_body server query skip st Hfail).
  - intros Hmax Hdown.
    assert (forall queries (st : FsisRecalls.world (pyfloat := pyfloat)),
               exists st',
                 fold_left (FsisRecalls.scrape_query server max_per_query) queries (Some st)
                 = Some st'
                 /\ FsisRecalls.conn st' = FsisRecalls.conn st
                 /\ FsisRecalls.total_inserted st' = FsisRecalls.total_inserted st
                 /\ page_requests (FsisRecalls.trace st')
                    = page_requests (FsisRecalls.trace st)
                      ++ map (fun query => (query, 100, 0)) queries) as Hrun.
    { induction queries as [|query queries IH]; intros st; cbn [fold_left].
      - exists st. by rewrite app_nil_r.
      - unfold FsisRecalls.scrape_query at 2. simpl.
        destruct (Z.to_nat max_per_query) as [|fuel] eqn:Ef; [lia|].
        simpl. apply Z.ltb_lt in Hmax. rewrite Hmax.
        rewrite (fetch_recalls_no_body server query 0 st (Hdown _ _ _ _)). simpl.
        match goal with |- context [fold_left _ queries (Some ?st1)] =>
          destruct (IH st1) as (st' & -> & Hc & Ht & Hp) end.
        exists st'. split; [done|]. simpl in *. split; [done|]. split; [done|].
        rewrite Hp. rewrite !page_requests_snoc. simpl.
        rewrite !app_nil_r, <- app_assoc. done. }
    unfold FsisRecalls.scrape_fsis_recalls.
    destruct (Hrun FsisRecalls.SEARCH_QUERIES (FsisRecalls.mkWorld db ∅ 0%nat [] 0%nat))
      as (st' & -> & Hc & Ht & Hp).
    simpl in *. eexists. split; [by rewrite Ht|]. simpl. split; [done|].
    by rewrite page_requests_snoc, Hp, app_nil_r.
Qed.

Lemma failed_page_ends_query_witness :
  exists st,
    FsisRecalls.scrape_fsis_recalls unreachable_recall_server 100 [identified_row]
    = Some (0%nat, st)
    /\ FsisRecalls.conn st = [identified_row]
    /\ length (page_requests (FsisRecalls.trace st)) = 12%nat.
Proof.
  destruct (failed_page_ends_query unit unreachable_recall_server 100 [identified_row])
    as [_ H].
  destruct H as (st & E & Hc & Hp); [lia|by intros|].
  exists st. split; [exact E|]. split; [exact Hc|]. by rewrite Hp.
Defined.

(** X12. The count the recall scraper returns is the number of records it
    handed to the store, which is the number of distinct recall numbers it
    saw; the rows it added to the table are at most that many. *)
Theorem recall_count_is_upserts (pyfloat : Type)
    (server : nat -> string -> Z -> Z -> FsisRecalls.response)
    (max_per_query : Z) (db : Conn pyfloat) :
  exists n st rows,
    FsisRecalls.scrape_fsis_recalls server max_per_query db = Some (n, st)
    /\ n = length (recalls_upserted (FsisRecalls.trace st))
    /\ n = size (FsisRecalls.seen_ids st)
    /\ FsisRecalls.conn st = db ++ rows
    /\ (length rows <= n)%nat.
Proof.
  destruct (scrape_fsis_recalls_ok server max_per_query db) as (st & E & Hc & _).
  destruct (recall_count_ok_run server max_per_query db _ st E) as [Ht Hs].
  destruct (upsert_all_extends (recalls_upserted (FsisRecalls.trace st)) db) as [rows Hrows].
  exists (FsisRecalls.total_inserted st), st, rows.
  split; [done|]. split; [done|]. split; [done|]. split; [by rewrite Hc|].
  assert (length (upsert_all db (recalls_upserted (FsisRecalls.trace st)))
          <= length db + length (recalls_upserted (FsisRecalls.trace st)))%nat as Hle.
  { generalize (recalls_upserted (FsisRecalls.trace st)) db. clear.
    induction l as [|r rs IH]; intros db; [simpl; lia|].
    unfold upsert_all in *. simpl. specialize (IH (insert_or_ignore db r)).
    destruct (insert_or_ignore_cases db r) as [(E & _)|(E & _)]; rewrite E in *;
      [rewrite length_app in IH; simpl in IH|]; lia. }
  rewrite Hrows, length_app in Hle. lia.
Qed.

(** X13. The count says nothing about what was inserted: a second run of
    the recall scraper, on the table the first run left and against the
    same server, returns the same count and leaves the table as it is. *)
Theorem recall_rerun_same_count (pyfloat : Type)
    (server : nat -> string -> Z -> Z -> FsisRecalls.response)
    (max_per_query : Z) (db : Conn pyfloat) :
  exists n st1 st2,
    FsisRecalls.scrape_fsis_recalls server max_per_query db = Some (n, st1)
    /\ FsisRecalls.scrape_fsis_recalls server max_per_query (FsisRecalls.conn st1)
       = Some (n, st2)
    /\ FsisRecalls.conn st2 = FsisRecalls.conn st1.
Proof.
  destruct (scrape_fsis_recalls_ok server max_per_query db) as (st1 & E1 & Hok1).
  destruct (scrape_fsis_recalls_ok server max_per_query (FsisRecalls.conn st1))
    as (st2 & E2 & Hok2).
  pose proof (scrape_fsis_recalls_same_upserts server max_per_query _ _ _ _ _ _ E1 E2) as Hsame.
  destruct (recall_count_ok_run server max_per_query _ _ _ E1) as [Ht1 _].
  destruct (recall_count_ok_run server max_per_query _ _ _ E2) as [Ht2 _].
  exists (FsisRecalls.total_inserted st1), st1, st2.
  split; [done|]. split; [by rewrite E2, Ht2, <- Hsame, <- Ht1|].
  pose proof (recall_run_ok_source_ids _ _ Hok1) as Hids.
  destruct Hok1 as [Hc1 _]. destruct Hok2 as [Hc2 _].
  rewrite Hc2, <- Hsame. rewrite Hc1 at 1 2.
  by apply upsert_all_absorbed, absorbed_after_upsert_all.
Qed.

Section FsisBudget.
Context {pyfloat : Type} (server : nat -> string -> Z -> Z -> FsisRecalls.response).
Implicit Types (st : FsisRecalls.world (pyfloat := pyfloat)).

Import FsisRecalls.

Lemma fetch_recalls_world query skip st :
  snd (fetch_recalls server query 100 skip st)
  = mkWorld (conn st) (seen_ids st) (total_inserted st)
            (trace st ++ [Get query 100 skip]) (S (requests st)).
Proof.
  unfold fetch_recalls. change (Z.min 100 100) with 100. cbv zeta.
  by destruct (server (requests st) query 100 skip).
Qed.

Lemma pages_within_step cap skip skip' :
  skip < cap -> skip + 100 <= skip' ->
  (S (pages_within (cap - skip')) <= pages_within (cap - skip))%nat.
Proof.
  unfold pages_within. intros H1 H2.
  assert ((cap - skip' + 99) / 100 <= (cap - skip + 99) / 100 - 1) as Hq.
  { replace ((cap - skip + 99) / 100 - 1) with ((cap - skip + 99 + (-1) * 100) / 100)
      by (rewrite Z.div_add; lia).
    apply Z.div_le_mono; lia. }
  assert (0 < (cap - skip + 99) / 100) as Hpos by (apply Z.div_str_pos; lia).
  lia.
Qed.

(** The page requests of one query: each within the cap, and no more of
    them than pages of 100 fit between the offset and the cap. *)
Lemma paginate_requests max_per_query fuel query skip st st' :
  query ∈ SEARCH_QUERIES -> 0 <= skip ->
  paginate server fuel query max_per_query skip st = Some st' ->
  exists new,
    page_requests (trace st') = page_requests (trace st) ++ new
    /\ Forall (page_request_ok max_per_query) new
    /\ (length new <= pages_within (max_per_query - skip))%nat
    /\ requests st' = (requests st + length new)%nat.
Proof.
  intros Hq. revert skip st. induction fuel as [|fuel IH]; intros skip st Hskip;
    cbn [paginate]; cbv zeta.
  - destruct (skip <? max_per_query); [discriminate|]. intros [= <-].
    exists []. rewrite app_nil_r. repeat split; [constructor|simpl; lia|simpl; lia].
  - destruct (skip <? max_per_query) eqn:Hlt.
    2:{ intros [= <-]. exists []. rewrite app_nil_r.
        repeat split; [constructor|simpl; lia|simpl; lia]. }
    apply Z.ltb_lt in Hlt.
    pose proof (fetch_recalls_world query skip st) as Hw.
    destruct (fetch_recalls server query 100 skip st) as [results st1]. simpl in Hw.
    assert (page_request_ok max_per_query (query, 100, skip)) as Hok
      by (repeat split; simpl; done || lia).
    assert (1 <= pages_within (max_per_query - skip))%nat as Hone.
    { unfold pages_within.
      assert (0 < (max_per_query - skip + 99) / 100) by (apply Z.div_str_pos; lia).
      lia. }
    destruct results as [|recall results]; cbv zeta.
    { intros [= <-]. exists [(query, 100, skip)]. rewrite Hw. cbn [trace requests].
      rewrite page_requests_snoc. simpl.
      split; [done|]. split; [by constructor|]. split; simpl; lia. }
    destruct (process_page_network (recall :: results) st1) as [Hr Hp].
    remember (fold_left process_recall (recall :: results) st1) as st2 eqn:Est2.
    clear Est2.
    destruct (Z.of_nat (length (recall :: results)) <? 100) eqn:Hlen.
    { intros [= <-]. exists [(query, 100, skip)]. rewrite Hr, Hp, Hw. cbn [trace requests].
      rewrite page_requests_snoc. simpl.
      split; [done|]. split; [by constructor|]. split; simpl; lia. }
    apply Z.ltb_ge in Hlen. intros E.
    assert (0 <= skip + Z.of_nat (length (recall :: results))) as Hskip' by lia.
    destruct (IH _ _ Hskip' E) as (new & Ht & Hall & Hn & Hreq).
    exists ((query, 100, skip) :: new).
    unfold sleep, emit in Ht, Hreq. cbn [trace requests] in Ht, Hreq.
    rewrite page_requests_snoc in Ht. simpl in Ht. rewrite app_nil_r in Ht.
    rewrite Ht, Hreq, Hr, Hp, Hw. cbn [trace requests].
    rewrite page_requests_snoc. simpl. rewrite <- app_assoc. simpl.
    split; [done|]. split; [by constructor|].
    split; [|lia].
    pose proof (pages_within_step max_per_query skip
                  (skip + Z.of_nat (length (recall :: results))) Hlt ltac:(lia)).
    lia.
Qed.

Lemma scrape_queries_requests max_per_query queries st st' :
  queries ⊆ SEARCH_QUERIES ->
  fold_left (scrape_query server max_per_query) queries (Some st) = Some st' ->
  exists new,
    page_requests (trace st') = page_requests (trace st) ++ new
    /\ Forall (page_request_ok max_per_query) new
    /\ (length new <= length queries * pages_within max_per_query)%nat
    /\ requests st' = (requests st + length new)%nat.
Proof.
  revert st. induction queries as [|query queries IH]; intros st Hsub; cbn [fold_left].
  - intros [= <-]. exists []. rewrite app_nil_r. repeat split; [constructor|simpl; lia..].
  - destruct (scrape_query server max_per_query (Some st) query) as [st1|] eqn:E;
      [|by rewrite fold_scrape_query_None].
    unfold scrape_query in E. simpl in E.
    destruct (paginate server _ query max_per_query 0 st) as [st2|] eqn:E2; [|discriminate].
    simpl in E. injection E as <-.
    assert (query ∈ SEARCH_QUERIES) as Hq by (apply Hsub; left).
    destruct (paginate_requests max_per_query _ query 0 st st2 Hq ltac:(done) E2)
      as (new1 & Ht1 & Hall1 & Hn1 & Hr1).
    intros E3.
    assert (queries ⊆ SEARCH_QUERIES) as Hsub'
      by (intros q Hin; apply Hsub; by right).
    destruct (IH _ Hsub' E3) as (new2 & Ht2 & Hall2 & Hn2 & Hr2).
    unfold sleep, emit in Ht2, Hr2. cbn [trace requests] in Ht2, Hr2.
    rewrite !page_requests_snoc in Ht2. simpl in Ht2. rewrite !app_nil_r in Ht2.
    exists (new1 ++ new2). rewrite Ht2, Hr2, Ht1, Hr1, <- app_assoc, length_app.
    split; [done|]. split; [by apply Forall_app|].
    rewrite Z.sub_0_r in Hn1. simpl. split; lia.
Qed.

End FsisBudget.

(** X14. Every page request of a run of the recall scraper is for one of
    the twelve fixed queries, asks for 100 results and has an offset from 0
    up to, and not including, the cap; there are at most twelve times as
    many of them as pages of 100 fit under the cap, and none at all when
    the cap is not positive. *)
Theorem recall_requests_within_budget (pyfloat : Type)
    (server : nat -> string -> Z -> Z -> FsisRecalls.response)
    (max_per_query : Z) (db : Conn pyfloat) :
  exists n st,
    FsisRecalls.scrape_fsis_recalls server max_per_query db = Some (n, st)
    /\ Forall (page_request_ok max_per_query) (page_requests (FsisRecalls.trace st))
    /\ (length (page_requests (FsisRecalls.trace st)) <= 12 * pages_within max_per_query)%nat
    /\ FsisRecalls.requests st = length (page_requests (FsisRecalls.trace st))
    /\ (max_per_query <= 0 -> page_requests (FsisRecalls.trace st) = []).
Proof.
  destruct (scrape_fsis_recalls_ok server max_per_query db) as (st & E & _).
  exists (FsisRecalls.total_inserted st), st. split; [done|].
  unfold FsisRecalls.scrape_fsis_recalls in E.
  destruct (fold_left _ FsisRecalls.SEARCH_QUERIES _) as [st0|] eqn:E0; [|discriminate].
  simpl in E. injection E as _ <-.
  destruct (scrape_queries_requests server max_per_query _ _ _ ltac:(done) E0)
    as (new & Ht & Hall & Hn & Hr).
  change (page_requests (FsisRecalls.trace st0) = new) in Ht.
  change (FsisRecalls.requests st0 = length new) in Hr.
  cbn [FsisRecalls.emit FsisRecalls.trace FsisRecalls.requests].
  rewrite page_requests_snoc, Ht, Hr. simpl. rewrite app_nil_r.
  change (length FsisRecalls.SEARCH_QUERIES) with 12%nat in Hn.
  split; [done|]. split; [done|]. split; [done|].
  intros Hmax. assert (pages_within max_per_query = 0%nat) as Hz.
  { unfold pages_within.
    assert ((max_per_query + 99) / 100 <= 99 / 100) by (apply Z.div_le_mono; lia).
    change (99 / 100) with 0 in *. lia. }
  rewrite Hz in Hn. destruct new; [done|simpl in Hn; lia].
Qed.

Lemma recall_requests_within_budget_witness :
  exists n st,
    FsisRecalls.scrape_fsis_recalls full_page_server 0 (@init_db unit) = Some (n, st)
    /\ page_requests (FsisRecalls.trace st) = [].
Proof.
  destruct (recall_requests_within_budget unit full_page_server 0 init_db)
    as (n & st & E & _ & _ & _ & Hnone).
  exists n, st. split; [exact E|]. apply Hnone. lia.
Defined.

(** ** More on the submit/poll/paginate fetcher *)

Section EpaMore.
Context {pyfloat : Type} (float_of_str : string -> option pyfloat)
        (server : nat -> EpaEcho.request -> EpaEcho.response).
Implicit Types (w : EpaEcho.world (pyfloat := pyfloat)) (db : Conn pyfloat).

Import EpaEcho.

Lemma upsert_all_length_le (rs : list (Violation pyfloat)) db :
  (length (upsert_all db rs) <= length db + length rs)%nat.
Proof.
  revert db. induction rs as [|r rs IH]; intros db; [simpl; lia|].
  unfold upsert_all in *. simpl. specialize (IH (insert_or_ignore db r)).
  destruct (insert_or_ignore_cases db r) as [(E & _)|(E & _)]; rewrite E in *;
    [rewrite length_app in IH; simpl in IH|]; lia.
Qed.

(** Once an exception is raised the remaining categories are skipped. *)
Lemma scrape_sic_raised max_per_sic codes e w :
  fold_left (scrape_sic float_of_str server max_per_sic) codes (Raise e, w) = (Raise e, w).
Proof. induction codes as [|sic_code codes IH]; [done|]. cbn [fold_left]. exact IH. Qed.

Lemma poll_requests n sic_code results w :
  (requests w <= requests (snd (poll server n sic_code results w)) <= requests w + n)%nat.
Proof.
  revert results w. induction n as [|n IH]; intros results w; cbn [poll];
    destruct (is_working results); simpl; try lia.
  destruct (server (requests w) (get_facilities sic_code)) as [| | |results'];
    try (match goal with |- context [poll server n sic_code ?r ?w1] =>
           specialize (IH r w1) end; simpl in IH; lia).
  simpl. lia.
Qed.

Lemma fetch_page_requests n qid page all_facilities w :
  (requests w <= requests (snd (fetch_page server n qid page all_facilities w))
   <= requests w + n)%nat.
Proof.
  revert w. induction n as [|n IH]; intros w; cbn [fetch_page]; [simpl; lia|].
  unfold http_get. cbn [requests].
  destruct (server (requests w) (get_qid qid page)) as [| | |page_results];
    try (match goal with |- context [fetch_page server n qid page all_facilities ?w1] =>
           specialize (IH w1) end; simpl in IH; lia).
  destruct (is_working page_results); [|simpl; lia].
  match goal with |- context [fetch_page server n qid page all_facilities ?w1] =>
    specialize (IH w1) end. simpl in IH. lia.
Qed.

Lemma fetch_pages_requests qid pages all_facilities w :
  (requests w
   <= requests (snd (fold_left (fetch_pages_step server qid) pages (all_facilities, w)))
   <= requests w + 6 * length pages)%nat.
Proof.
  revert all_facilities w.
  induction pages as [|page pages IH]; intros all_facilities w; cbn [fold_left];
    [simpl; lia|].
  rewrite fetch_pages_step_eq.
  pose proof (fetch_page_requests 6 qid page all_facilities w) as H6.
  match goal with |- context [fold_left _ pages (?a, ?w1)] => specialize (IH a w1) end.
  unfold sleep, emit in IH |- *. cbn [requests length] in IH |- *. lia.
Qed.

Lemma length_range_from_1 n : length (range_from_1 n) = Z.to_nat n.
Proof. unfold range_from_1. by rewrite length_map, length_seq. Qed.

Lemma fetch_facilities_requests sic_code max_facilities w :
  (requests w < requests (snd (fetch_facilities_for_sic server sic_code max_facilities w))
   <= requests w + category_budget max_facilities)%nat.
Proof.
  unfold fetch_facilities_for_sic, http_get, category_budget.
  destruct (server (requests w) (get_facilities sic_code)) as [| | |results0];
    [simpl; lia..|].
  match goal with |- context [poll server 12 sic_code results0 ?w1] =>
    pose proof (poll_requests 12 sic_code results0 w1) as Hpoll;
    destruct (poll server 12 sic_code results0 w1) as [[results|e] w2] end;
    simpl in Hpoll; [|simpl; lia].
  destruct (query_rows results) as [total_rows|e]; [|simpl; lia].
  destruct ((total_rows =? 0) || no_qid results); [simpl; lia|].
  match goal with |- context [fold_left ?f ?pages (?acc, w2)] =>
    pose proof (fetch_pages_requests (query_id results)
                  pages acc w2) as Hpages;
    destruct (fold_left f pages (acc, w2)) as [all_facilities w3] end.
  rewrite length_range_from_1 in Hpages. simpl in *.
  assert (Z.to_nat ((Z.min total_rows max_facilities + 99) / 100)
          <= pages_within max_facilities)%nat as Hp.
  { unfold pages_within.
    assert ((Z.min total_rows max_facilities + 99) / 100 <= (max_facilities + 99) / 100)
      by (apply Z.div_le_mono; lia).
    lia. }
  lia.
Qed.

End EpaMore.

Section EpaInvariant.
Context {pyfloat : Type} (float_of_str : string -> option pyfloat)
        (server : nat -> EpaEcho.request -> EpaEcho.response).
Implicit Types (w : EpaEcho.world (pyfloat := pyfloat)) (db : Conn pyfloat).

Import EpaEcho.

(** A predicate that network steps and the handling of one facility keep
    is kept by a run, whether the run returns or raises. *)
Lemma scrape_epa_echo_invariant (P : world (pyfloat := pyfloat) -> Prop) max_per_sic db :
  (forall w w', network_only w w' -> P w -> P w') ->
  (forall sic_code w facility, P w -> P (process_facility float_of_str sic_code w facility)) ->
  P (mkWorld db 0%nat [] 0%nat) ->
  P (snd (scrape_epa_echo float_of_str server max_per_sic db)).
Proof.
  intros Hnet Hprocess Hinit.
  assert (forall sic_code facilities w,
             P w -> P (fold_left (process_facility float_of_str sic_code) facilities w))
    as Hfacilities.
  { intros sic_code. induction facilities as [|facility facilities IH]; intros w H; simpl;
      [done|]. by apply IH, Hprocess. }
  assert (forall sic_code acc,
             P (snd acc) -> P (snd (scrape_sic float_of_str server max_per_sic acc sic_code)))
    as Hsic.
  { intros sic_code [[[]|e] w]; simpl; [|done]. intros H.
    pose proof (network_only_fetch_facilities server sic_code max_per_sic w) as Hfetch.
    destruct (fetch_facilities_for_sic server sic_code max_per_sic w)
      as [[facilities|e] w1]; simpl in *.
    - eapply Hnet; [by apply network_only_emit|].
      eapply Hnet; [by apply network_only_emit|].
      apply Hfacilities. by eapply Hnet.
    - by eapply Hnet. }
  assert (forall codes acc,
             P (snd acc) ->
             P (snd (fold_left (scrape_sic float_of_str server max_per_sic) codes acc)))
    as Hcodes.
  { induction codes as [|sic_code codes IH]; intros acc H; cbn [fold_left]; [done|].
    by apply IH, Hsic. }
  unfold scrape_epa_echo.
  pose proof (Hcodes CAFO_SIC_CODES (Return tt, mkWorld db 0%nat [] 0%nat) Hinit) as H.
  destruct (fold_left _ CAFO_SIC_CODES _) as [[[]|e] w]; simpl in *; [|done].
  eapply Hnet; [by apply network_only_emit|done].
Qed.

Lemma process_facilities_requests sic_code facilities w :
  requests (fold_left (process_facility float_of_str sic_code) facilities w) = requests w.
Proof.
  revert w. induction facilities as [|facility facilities IH]; intros w; simpl; [done|].
  rewrite IH. unfold process_facility.
  by destruct (facility_to_violation float_of_str facility sic_code).
Qed.

Lemma scrape_sic_requests max_per_sic acc sic_code :
  (requests (snd acc)
   <= requests (snd (scrape_sic float_of_str server max_per_sic acc sic_code))
   <= requests (snd acc) + category_budget max_per_sic)%nat.
Proof.
  destruct acc as [[[]|e] w]; simpl; [|lia].
  pose proof (fetch_facilities_requests server sic_code max_per_sic w) as Hfetch.
  destruct (fetch_facilities_for_sic server sic_code max_per_sic w)
    as [[facilities|e] w1]; simpl in *; [|lia].
  rewrite process_facilities_requests. lia.
Qed.

Lemma scrape_codes_requests max_per_sic codes acc :
  (requests (snd (fold_left (scrape_sic float_of_str server max_per_sic) codes acc))
   <= requests (snd acc) + length codes * category_budget max_per_sic)%nat.
Proof.
  revert acc. induction codes as [|sic_code codes IH]; intros acc; cbn [fold_left];
    [simpl; lia|].
  specialize (IH (scrape_sic float_of_str server max_per_sic acc sic_code)).
  pose proof (scrape_sic_requests max_per_sic acc sic_code).
  cbn [length]. rewrite Nat.mul_succ_l. lia.
Qed.

(** A page that is not ready on any attempt is given up when the attempts
    run out. *)
Lemma fetch_page_not_ready n qid page all_facilities w :
  (forall k, page_not_ready (server k (get_qid qid page))) ->
  fst (fetch_page server n qid page all_facilities w) = all_facilities
  /\ requests (snd (fetch_page server n qid page all_facilities w)) = (requests w + n)%nat.
Proof.
  intros Hnot. revert w. induction n as [|n IH]; intros w; cbn [fetch_page];
    [simpl; split; [done|lia]|].
  unfold http_get. cbn [requests].
  pose proof (Hnot (requests w)) as Hk.
  destruct (server (requests w) (get_qid qid page)) as [| | |page_results]; simpl in Hk;
    try rewrite Hk;
    match goal with |- context [fetch_page server n qid page all_facilities ?w1] =>
      destruct (IH w1) as [-> ->] end; simpl; (split; [done|lia]).
Qed.

End EpaInvariant.

(** X15. When the initiating request of a category fails, the facility
    scraper does nothing for that category but commit and pause, and goes
    on to the next one; with the server down for the whole run it returns
    the count 0 after one request for each of the five categories and
    leaves the table as it was. *)
Theorem category_failure_isolated (pyfloat : Type)
    (float_of_str : string -> option pyfloat)
    (server : nat -> EpaEcho.request -> EpaEcho.response)
    (max_per_sic : Z) (db : Conn pyfloat) :
  (forall (w : EpaEcho.world (pyfloat := pyfloat)) sic_code,
      server (EpaEcho.requests w) (EpaEcho.get_facilities sic_code) = EpaEcho.Failure ->
      EpaEcho.scrape_sic float_of_str server max_per_sic (Return tt, w) sic_code
      = (Return tt,
         EpaEcho.mkWorld (EpaEcho.conn w) (EpaEcho.total_inserted w)
           (EpaEcho.trace w ++ [EpaEcho.Get (EpaEcho.get_facilities sic_code);
                                EpaEcho.Commit; EpaEcho.Sleep 1])
           (S (EpaEcho.requests w))))
  /\ ((forall n r, server n r = EpaEcho.Failure) ->
      exists w,
        EpaEcho.scrape_epa_echo float_of_str server max_per_sic db = (Return 0%nat, w)
        /\ EpaEcho.conn w = db
        /\ EpaEcho.requests w = 5%nat).
Proof.
  assert (forall (w : EpaEcho.world (pyfloat := pyfloat)) sic_code,
      server (EpaEcho.requests w) (EpaEcho.get_facilities sic_code) = EpaEcho.Failure ->
      EpaEcho.scrape_sic float_of_str server max_per_sic (Return tt, w) sic_code
      = (Return tt,
         EpaEcho.mkWorld (EpaEcho.conn w) (EpaEcho.total_inserted w)
           (EpaEcho.trace w ++ [EpaEcho.Get (EpaEcho.get_facilities sic_code);
                                EpaEcho.Commit; EpaEcho.Sleep 1])
           (S (EpaEcho.requests w)))) as Hstep.
  { intros w sic_code Hfail.
    unfold EpaEcho.scrape_sic, EpaEcho.fetch_facilities_for_sic, EpaEcho.http_get.
    rewrite Hfail. unfold EpaEcho.sleep, EpaEcho.emit. simpl.
    by rewrite <- !app_assoc. }
  split; [exact Hstep|].
  intros Hdown. unfold EpaEcho.scrape_epa_echo, EpaEcho.CAFO_SIC_CODES. cbn [fold_left].
  rewrite !Hstep by apply Hdown. eexists. split; [reflexivity|]. done.
Qed.

Lemma category_failure_isolated_witness :
  exists w,
    EpaEcho.scrape_epa_echo no_float unreachable_facility_server 100 [identified_row]
    = (Return 0%nat, w)
    /\ EpaEcho.conn w = [identified_row]
    /\ EpaEcho.requests w = 5%nat.
Proof.
  apply (category_failure_isolated unit no_float unreachable_facility_server 100
           [identified_row]).
  reflexivity.
Defined.





(** X18. One category costs the facility fetcher at least one request and
    at most 13 plus 6 for each page of 100 that fits under the cap; a run
    of the scraper costs at most five times as many, which is 95 requests
    under the cap of 100 that the orchestrator sets. *)
Theorem facility_requests_within_budget (pyfloat : Type)
    (float_of_str : string -> option pyfloat)
    (server : nat -> EpaEcho.request -> EpaEcho.response)
    (sic_code : string) (max_facilities : Z)
    (w : EpaEcho.world (pyfloat := pyfloat)) (db : Conn pyfloat) :
  (EpaEcho.requests w
   < EpaEcho.requests (snd (EpaEcho.fetch_facilities_for_sic server sic_code max_facilities w))
   <= EpaEcho.requests w + category_budget max_facilities)%nat
  /\ (EpaEcho.requests (snd (EpaEcho.scrape_epa_echo float_of_str server max_facilities db))
      <= 5 * category_budget max_facilities)%nat
  /\ (EpaEcho.requests (snd (EpaEcho.scrape_epa_echo float_of_str server 100 db)) <= 95)%nat.
Proof.
  assert (forall cap,
             (EpaEcho.requests (snd (EpaEcho.scrape_epa_echo float_of_str server cap db))
              <= 5 * category_budget cap)%nat) as Hrun.
  { intros cap. unfold EpaEcho.scrape_epa_echo.
    pose proof (scrape_codes_requests float_of_str server cap EpaEcho.CAFO_SIC_CODES
                  (Return tt, EpaEcho.mkWorld db 0%nat [] 0%nat)) as H.
    destruct (fold_left _ EpaEcho.CAFO_SIC_CODES _) as [[[]|e] w']; simpl in *; lia. }
  split; [apply fetch_facilities_requests|]. split; [apply Hrun|].
  apply (Hrun 100).
Qed.

(** X19. A page that fails or is still [Working] on each of its six
    attempts is given up: the fetcher has asked for it six times and goes
    on with the facilities it had. *)
Theorem page_given_up_after_6 (pyfloat : Type)
    (server : nat -> EpaEcho.request -> EpaEcho.response)
    (qid : json) (page : Z) (all_facilities : list (gmap string string))
    (w : EpaEcho.world (pyfloat := pyfloat)) :
  (forall k, page_not_ready (server k (EpaEcho.get_qid qid page))) ->
  fst (EpaEcho.fetch_page server 6 qid page all_facilities w) = all_facilities
  /\ EpaEcho.requests (snd (EpaEcho.fetch_page server 6 qid page all_facilities w))
     = (EpaEcho.requests w + 6)%nat
  /\ fst (EpaEcho.fetch_pages_step server qid (all_facilities, w) page) = all_facilities.
Proof.
  intros Hnot.
  destruct (fetch_page_not_ready server 6 qid page all_facilities w Hnot) as [Hf Hr].
  split; [done|]. split; [done|].
  by rewrite fetch_pages_step_eq.
Qed.

Lemma page_given_up_after_6_witness :
  fst (EpaEcho.fetch_facilities_for_sic stalled_page_server "0211" 100
         (fresh_facility_run (@init_db unit))) = Return []
  /\ EpaEcho.requests
       (snd (EpaEcho.fetch_page stalled_page_server 6 (JStr "7") 1 []
               (fresh_facility_run (@init_db unit)))) = 6%nat.
Proof.
  split; [vm_compute; reflexivity|].
  apply (page_given_up_after_6 unit stalled_page_server (JStr "7") 1 []
           (fresh_facility_run init_db)).
  intros k. reflexivity.
Defined.

(** X20. The count of the facility scraper is the number of facilities
    that were kept and handed to the store, whether or not they were
    stored: the rows added to the table are at most that many, and the
    count a run returns is the counter at its end. *)
Theorem facility_count_is_upserts (pyfloat : Type)
    (float_of_str : string -> option pyfloat)
    (server : nat -> EpaEcho.request -> EpaEcho.response)
    (max_per_sic : Z) (db : Conn pyfloat) :
  let run := EpaEcho.scrape_epa_echo float_of_str server max_per_sic db in
  EpaEcho.total_inserted (snd run) = length (facilities_upserted (EpaEcho.trace (snd run)))
  /\ (exists rows, EpaEcho.conn (snd run) = db ++ rows
                   /\ (length rows <= EpaEcho.total_inserted (snd run))%nat)
  /\ match fst run with
     | Return n => n = EpaEcho.total_inserted (snd run)
     | Raise _ => True
     end.
Proof.
  intros run.
  assert (EpaEcho.total_inserted (snd run)
          = length (facilities_upserted (EpaEcho.trace (snd run)))) as Hcount.
  { subst run.
    apply (scrape_epa_echo_invariant float_of_str server
             (fun w => EpaEcho.total_inserted w
                       = length (facilities_upserted (EpaEcho.trace w)))).
    - intros w w' (_ & Ht & Hu) H. by rewrite Ht, Hu.
    - intros sic_code w facility H. unfold EpaEcho.process_facility.
      destruct (EpaEcho.facility_to_violation float_of_str facility sic_code); [|done].
      simpl. rewrite facilities_upserted_snoc, length_app, <- H. simpl. lia.
    - done. }
  split; [done|]. split.
  - destruct (scrape_epa_echo_ok float_of_str server max_per_sic db) as [Hc _].
    fold run in Hc.
    destruct (upsert_all_extends (facilities_upserted (EpaEcho.trace (snd run))) db)
      as [rows Hrows].
    exists rows. split; [by rewrite Hc|].
    pose proof (upsert_all_length_le (facilities_upserted (EpaEcho.trace (snd run))) db) as Hle.
    rewrite Hrows, length_app in Hle. lia.
  - subst run. unfold EpaEcho.scrape_epa_echo.
    by destruct (fold_left _ EpaEcho.CAFO_SIC_CODES _) as [[[]|e] w'].
Qed.

(** ** More on the orchestrator *)

(** X21. [main] swallows only instances of [Exception]: anything else a
    scraper raises (a keyboard interrupt, a system exit) leaves [main] as
    it is, and when it comes from the recall scraper the facility scraper
    is never run. *)
Theorem main_passes_on_other_exceptions (World : Type)
    (seed_database : World -> nat * World)
    (scrape_fsis_recalls scrape_epa_echo : Z -> World -> result nat * World)
    (w : World) (e : exn) :
  is_Exception e = false ->
  let w1 := snd (seed_database w) in
  (fst (scrape_fsis_recalls 100 w1) = Raise e ->
   Scrape.main seed_database scrape_fsis_recalls scrape_epa_echo w = Raise e)
  /\ (forall n, fst (scrape_fsis_recalls 100 w1) = Return n ->
      fst (scrape_epa_echo 100 (snd (scrape_fsis_recalls 100 w1))) = Raise e ->
      Scrape.main seed_database scrape_fsis_recalls scrape_epa_echo w = Raise e).
Proof.
  intros He w1. subst w1. unfold Scrape.main, Scrape.step_seed, Scrape.step_fsis.
  simpl. destruct (seed_database w) as [c w1]. simpl.
  destruct (scrape_fsis_recalls 100 w1) as [[n2|e2] w2]; simpl; split.
  - discriminate.
  - intros n _. unfold Scrape.step_epa. simpl.
    destruct (scrape_epa_echo 100 w2) as [[n3|e3] w3]; simpl; [discriminate|].
    intros [= ->]. by destruct e.
  - intros [= ->]. by rewrite He.
  - discriminate.
Qed.

Lemma main_passes_on_other_exceptions_witness :
  Scrape.main seed_three fsis_interrupted epa_times_out tt
  = Raise (BaseExceptionOnly "KeyboardInterrupt").
Proof.
  apply (main_passes_on_other_exceptions unit seed_three fsis_interrupted epa_times_out tt
           (BaseExceptionOnly "KeyboardInterrupt")); reflexivity.
Defined.

(** X22. Whenever [main] completes, the alarm was armed once, for 90
    seconds, and every later call on it disarmed it, the last one
    included: no run that completes leaves the alarm armed. *)
Theorem main_disarms_alarm (World : Type)
    (seed_database : World -> nat * World)
    (scrape_fsis_recalls scrape_epa_echo : Z -> World -> result nat * World)
    (w : World) (f : Scrape.frame) :
  Scrape.main seed_database scrape_fsis_recalls scrape_epa_echo w = Return f ->
  exists later,
    alarms (Scrape.log f) = 90 :: later
    /\ Forall (fun seconds => seconds = 0) later
    /\ last (alarms (Scrape.log f)) = Some 0.
Proof.
  unfold Scrape.main, Scrape.step_seed, Scrape.step_fsis, Scrape.step_epa. simpl.
  destruct (seed_database w) as [c w1]. simpl.
  destruct (scrape_fsis_recalls 100 w1) as [[n2|e2] w2]; simpl;
    [|destruct (is_Exception e2); [simpl|discriminate]];
    (destruct (scrape_epa_echo 100 w2) as [[n3|e3] w3]; simpl;
     [|destruct e3; simpl; try discriminate]);
    intros [= <-]; simpl; unfold alarms; simpl;
    eexists; (split; [reflexivity|]); split; repeat constructor.
Qed.

Lemma main_disarms_alarm_witness :
  exists f,
    Scrape.main seed_three fsis_returns_7 epa_returns_2 tt = Return f
    /\ Scrape.total f = 12%nat
    /\ alarms (Scrape.log f) = [90; 0; 0].
Proof.
  eexists. split; [reflexivity|]. split; [reflexivity|].
  destruct (main_disarms_alarm unit seed_three fsis_returns_7 epa_returns_2 tt _ eq_refl)
    as (later & E & _). reflexivity.
Defined.

(** ** The read side *)

Section LikeFacts.

Import App.










End LikeFacts.



Section Paging.
Context {A : Type}.


End Paging.

Section ListingFacts.
Context {pyfloat : Type}.



Lemma selected_app (c1 c2 : list (Violation pyfloat -> result App.sql_bool)) row :
  App.selected (c1 ++ c2) row = App.selected c1 row && App.selected c2 row.
Proof. unfold App.selected. apply forallb_app. Qed.




Section Plan.
Variable visits : App.statement -> App.Row (pyfloat := pyfloat) -> bool.



(** The rows on a page are selected rows. *)
Lemma listed_rows_selected (conn : Conn pyfloat)
    (search state source severity violation_type date_from date_to : option string)
    (page per_page : Z) answer row :
  App.list_violations visits conn search state source severity violation_type
    date_from date_to page per_page = Some (Return answer) ->
  row ∈ App.data answer ->
  row ∈ App.rows_of conn
  /\ App.selected (App.conditions search state source severity violation_type
                     date_from date_to) row = true.
Proof.
  unfold App.list_violations.
  destruct (_ && _ && _); [|discriminate]. cbv zeta.
  destruct (App.fails visits App.CountRows _ conn); [discriminate|].
  destruct (2 ^ 63 <=? _); [discriminate|].
  destruct (App.fails visits App.FetchPage _ conn); [discriminate|].
  intros [= <-]. cbn [App.data].
  intros Hin.
  assert (row ∈ App.select_ordered conn
            (App.conditions search state source severity violation_type date_from date_to))
    as Hrow.
  { eapply elem_of_sublist; [|apply sublist_drop].
    eapply elem_of_sublist; [exact Hin|apply sublist_take]. }
  unfold App.select_ordered in Hrow. rewrite merge_sort_Permutation in Hrow.
  apply list_elem_of_In, filter_In in Hrow as [Hrow Hsel].
  split; [by apply list_elem_of_In|done].
Qed.

End Plan.

End ListingFacts.











(** ** The order of text and of rows *)

Lemma ascii_compare_refl (a : ascii) : (a ?= a)%char = Eq.
Proof. unfold Ascii.compare. apply N.compare_refl. Qed.

Lemma ascii_compare_lt_trans (a b c : ascii) :
  (a ?= b)%char = Lt -> (b ?= c)%char = Lt -> (a ?= c)%char = Lt.
Proof. unfold Ascii.compare. rewrite !N.compare_lt_iff. lia. Qed.

Lemma string_compare_refl (s : string) : (s ?= s)%string = Eq.
Proof. induction s as [|c s IH]; simpl; [done|]. by rewrite ascii_compare_refl. Qed.

Lemma string_compare_lt_trans (s1 s2 s3 : string) :
  (s1 ?= s2)%string = Lt -> (s2 ?= s3)%string = Lt -> (s1 ?= s3)%string = Lt.
Proof.
  revert s2 s3. induction s1 as [|c1 s1 IH]; intros [|c2 s2] [|c3 s3]; simpl;
    try done.
  destruct (c1 ?= c2)%char eqn:E12; try done.
  - apply Ascii.compare_eq_iff in E12 as ->.
    destruct (c2 ?= c3)%char; try done. apply IH.
  - destruct (c2 ?= c3)%char eqn:E23; try done.
    + apply Ascii.compare_eq_iff in E23 as <-. by rewrite E12.
    + by rewrite (ascii_compare_lt_trans c1 c2 c3).
Qed.

Lemma string_compare_lt_ne (s1 s2 : string) : (s1 ?= s2)%string = Lt -> s1 <> s2.
Proof. intros H ->. by rewrite string_compare_refl in H. Qed.

Lemma string_compare_cases (s1 s2 : string) :
  s1 = s2 \/ (s1 ?= s2)%string = Lt \/ (s2 ?= s1)%string = Lt.
Proof.
  destruct (s1 ?= s2)%string eqn:E.
  - left. by apply String.compare_eq_iff.
  - by right; left.
  - right; right. by rewrite String.compare_antisym, E.
Qed.

Section RowOrder.
Context {pyfloat : Type}.
Implicit Types a b c : App.Row (pyfloat := pyfloat).

Lemma comes_before_spec a b :
  App.comes_before a b <->
  match date (snd a), date (snd b) with
  | Some x, Some y => (x = y /\ (fst b <= fst a)%nat) \/ (y ?= x)%string = Lt
  | Some _, None => True
  | None, Some _ => False
  | None, None => (fst b <= fst a)%nat
  end.
Proof.
  unfold App.comes_before, App.comes_before_b.
  destruct (date (snd a)) as [x|], (date (snd b)) as [y|]; try done.
  - destruct (String.eqb_spec x y) as [->|Hne].
    + rewrite Nat.leb_le. split; [by left|].
      intros [[_ H]|H]; [done|]. by rewrite string_compare_refl in H.
    + unfold String.ltb. split.
      * intros H. right. by destruct (y ?= x)%string.
      * intros [[H _]|H]; [done|]. by rewrite H.
  - apply Nat.leb_le.
Qed.

#[local] Instance comes_before_total : Total (App.comes_before (pyfloat := pyfloat)).
Proof.
  intros a b. rewrite !comes_before_spec.
  destruct (date (snd a)) as [x|], (date (snd b)) as [y|]; try (by left); try (by right).
  - destruct (string_compare_cases x y) as [->|[H|H]].
    + destruct (Nat.le_gt_cases (fst b) (fst a)); [left|right]; left; split; done || lia.
    + right. by right.
    + left. by right.
  - destruct (Nat.le_gt_cases (fst b) (fst a)); [left|right]; done || lia.
Qed.

#[local] Instance comes_before_trans : Transitive (App.comes_before (pyfloat := pyfloat)).
Proof.
  intros a b c. rewrite !comes_before_spec.
  destruct (date (snd a)) as [x|], (date (snd b)) as [y|], (date (snd c)) as [z|];
    try done; try lia.
  intros [[-> Hab]|Hab] [[-> Hbc]|Hbc].
  - left. split; [done|lia].
  - by right.
  - by right.
  - right. by apply (string_compare_lt_trans z y x).
Qed.

Lemma select_ordered_sorted (conn : Conn pyfloat) where_clause :
  StronglySorted App.comes_before (App.select_ordered conn where_clause).
Proof. unfold App.select_ordered. apply (StronglySorted_merge_sort _). Qed.

End RowOrder.

(** X26. The rows of a page are listed in the order of the query: a row
    with a date comes before every later row with an earlier date and
    before every later row without date, and of two rows with the same
    date, or both without, the one inserted last comes first. *)
Theorem listing_is_ordered (pyfloat : Type)
    (visits : App.statement -> App.Row (pyfloat := pyfloat) -> bool) (conn : Conn pyfloat)
    (search state source severity violation_type date_from date_to : option string)
    (page per_page : Z) (answer : App.Page (pyfloat := pyfloat)) :
  App.list_violations visits conn search state source severity violation_type
    date_from date_to page per_page = Some (Return answer) ->
  StronglySorted
    (fun a b =>
       match date (snd a), date (snd b) with
       | Some x, Some y => (x = y /\ (fst b <= fst a)%nat) \/ String.ltb y x = true
       | Some _, None => True
       | None, Some _ => False
       | None, None => (fst b <= fst a)%nat
       end)
    (App.data answer).
Proof.
  unfold App.list_violations.
  destruct (_ && _ && _); [|discriminate]. cbv zeta.
  destruct (App.fails visits App.CountRows _ conn); [discriminate|].
  destruct (2 ^ 63 <=? _); [discriminate|].
  destruct (App.fails visits App.FetchPage _ conn); [discriminate|].
  intros [= <-]. cbn [App.data].
  set (rows := App.select_ordered conn _).
  assert (StronglySorted App.comes_before rows) as Hsorted
    by apply select_ordered_sorted.
  assert (StronglySorted App.comes_before
            (take (Z.to_nat per_page) (drop (Z.to_nat ((page - 1) * per_page)) rows)))
    as Hpage.
  { rewrite <- (take_drop (Z.to_nat ((page - 1) * per_page)) rows) in Hsorted.
    apply StronglySorted_app_1_r in Hsorted.
    rewrite <- (take_drop (Z.to_nat per_page) (drop _ rows)) in Hsorted.
    by apply StronglySorted_app_1_l in Hsorted. }
  clear Hsorted. induction Hpage as [|a l Hl IH Ha]; constructor; [done|].
  eapply Forall_impl; [exact Ha|]. intros b Hab. apply comes_before_spec in Hab.
  destruct (date (snd a)), (date (snd b)); try done.
  destruct Hab as [H|H]; [by left|right]. unfold String.ltb. by rewrite H.
Qed.

Lemma listing_is_ordered_witness :
  exists answer,
    App.list_violations full_scan listed_rows None None None None None None None 1 50
    = Some (Return answer)
    /\ map fst (App.data answer) = [1%nat; 0%nat; 2%nat].
Proof.
  eexists. split; [vm_compute; reflexivity|].
  pose proof (listing_is_ordered unit full_scan listed_rows None None None None None None
                None 1 50 _ eq_refl) as H.
  vm_compute. reflexivity.
Defined.

(** ** States and their counts *)

#[local] Instance text_le_total : Total App.text_le.
Proof. intros a b. unfold App.text_le. apply String.leb_total. Qed.

#[local] Instance text_le_trans : Transitive App.text_le.
Proof.
  intros a b c. unfold App.text_le, String.leb.
  destruct (string_compare_cases a b) as [->|[Hab|Hab]]; [done| |].
  - destruct (string_compare_cases b c) as [->|[Hbc|Hbc]].
    + done.
    + by rewrite (string_compare_lt_trans a b c).
    + intros _. by rewrite (String.compare_antisym b c), Hbc.
  - by rewrite (String.compare_antisym a b), Hab.
Qed.

Lemma text_le_ne_lt (a b : string) : App.text_le a b -> a <> b -> String.ltb a b = true.
Proof.
  unfold App.text_le, String.leb, String.ltb. intros Hle Hne.
  destruct (a ?= b)%string eqn:E; try done.
  by apply String.compare_eq_iff in E.
Qed.

Lemma sum_list_zero {A : Type} (f : A -> nat) (l : list A) :
  Forall (fun x => f x = 0%nat) l -> sum_list (map f l) = 0%nat.
Proof. induction 1 as [|x l Hx _ IH]; simpl; [done|]. by rewrite Hx, IH. Qed.

Lemma sum_list_add {A : Type} (f g : A -> nat) (l : list A) :
  sum_list (map (fun x => (f x + g x)%nat) l)
  = (sum_list (map f l) + sum_list (map g l))%nat.
Proof. induction l as [|x l IH]; simpl; [done|]. rewrite IH. lia. Qed.

Lemma indicator_sum (ks : list string) (x : string) :
  NoDup ks -> x ∈ ks ->
  sum_list (map (fun k => if String.eqb k x then 1%nat else 0%nat) ks) = 1%nat.
Proof.
  induction 1 as [|k ks Hk Hnd IH]; intros Hin; [by apply elem_of_nil in Hin|].
  simpl. destruct (String.eqb_spec k x) as [->|Hne].
  - rewrite sum_list_zero; [done|].
    apply Forall_forall. intros k Hk'. destruct (String.eqb_spec k x) as [->|]; done.
  - apply elem_of_cons in Hin as [->|Hin]; [done|]. by rewrite IH.
Qed.

Lemma count_sum (ks l : list string) :
  NoDup ks -> (forall x, x ∈ l -> x ∈ ks) ->
  sum_list (map (fun k => length (List.filter (String.eqb k) l)) ks) = length l.
Proof.
  intros Hnd. induction l as [|x l IH]; intros Hin.
  - simpl. apply sum_list_zero. by apply Forall_forall.
  - rewrite (map_ext _ (fun k => ((if String.eqb k x then 1 else 0)
                                  + length (List.filter (String.eqb k) l))%nat)).
    + rewrite sum_list_add, indicator_sum, IH; [done| |done|].
      * intros y Hy. apply Hin. by right.
      * apply Hin. by left.
    + intros k. simpl. by destruct (String.eqb k x).
Qed.

Lemma count_states {pyfloat : Type} (conn : Conn pyfloat) (s : string) :
  length (List.filter (String.eqb s) (omap state conn))
  = length (List.filter (fun r => bool_decide (state r = Some s)) conn).
Proof.
  induction conn as [|r conn IH]; [done|].
  cbn [omap list_omap List.filter]. destruct (state r) as [st|] eqn:E.
  - cbn [List.filter]. destruct (String.eqb_spec s st) as [->|Hne].
    + rewrite bool_decide_eq_true_2 by done. simpl. by rewrite IH.
    + rewrite bool_decide_eq_false_2 by congruence. done.
  - rewrite bool_decide_eq_false_2 by done. done.
Qed.

(** X27. The listing of states gives every state that some row carries
    exactly once, in strictly ascending order of text, each with the number
    of rows that carry it, which is at least one; the counts add up to the
    number of rows that carry a state. Text is compared as it is stored, so
    two spellings of a state that differ in case are two states. *)
Theorem states_listing_counts (pyfloat : Type) (conn : Conn pyfloat) :
  let listing := App.get_states conn in
  sum_list (map snd listing) = length (omap state conn)
  /\ StronglySorted (fun a b => String.ltb a b = true) (map fst listing)
  /\ Forall (fun entry =>
               (1 <= snd entry)%nat
               /\ snd entry
                  = length (List.filter (fun r => bool_decide (state r = Some (fst entry)))
                              conn)) listing
  /\ (forall s, s ∈ map fst listing <-> exists r, r ∈ conn /\ state r = Some s).
Proof.
  intros listing. subst listing. unfold App.get_states. cbv zeta.
  set (states := omap state conn).
  set (ks := merge_sort App.text_le (remove_dups states)).
  assert (ks ≡ₚ remove_dups states) as Hperm by apply merge_sort_Permutation.
  assert (NoDup ks) as Hnd by (rewrite Hperm; apply NoDup_remove_dups).
  assert (forall x, x ∈ ks <-> x ∈ states) as Hks
    by (intros x; by rewrite Hperm, elem_of_remove_dups).
  assert (forall x, x ∈ states <-> exists r, r ∈ conn /\ state r = Some x) as Hstates
    by (intros x; apply list_elem_of_omap).
  rewrite !map_map. cbn [fst snd]. rewrite map_id.
  split; [|split; [|split]].
  - apply count_sum; [done|]. intros x. apply Hks.
  - assert (StronglySorted App.text_le ks) as Hsorted
      by apply (StronglySorted_merge_sort _).
    clear Hperm Hks. induction Hsorted as [|k ks' Hs IH Hk]; constructor.
    + apply IH. by apply NoDup_cons in Hnd as [_ ?].
    + apply NoDup_cons in Hnd as [Hnot _].
      apply Forall_forall. intros x Hx.
      apply text_le_ne_lt; [by apply (proj1 (Forall_forall _ _) Hk)|].
      intros ->. done.
  - apply Forall_forall. intros entry Hentry.
    apply list_elem_of_fmap in Hentry as (k & -> & Hk). cbn [fst snd].
    subst states. rewrite count_states. split; [|done].
    apply Hks, Hstates in Hk as (r & Hr & Hst).
    apply list_elem_of_In in Hr.
    assert (In r (List.filter (fun r => bool_decide (state r = Some k)) conn)) as Hin
      by (apply filter_In; split; [done|by apply bool_decide_eq_true_2]).
    destruct (List.filter _ conn); [done|simpl; lia].
  - intros s. by rewrite Hks, Hstates.
Qed.

Lemma states_listing_counts_witness :
  App.get_states listed_rows = [("IA", 2%nat); ("ia", 1%nat)]
  /\ exists r, r ∈ listed_rows /\ state r = Some "ia".
Proof.
  split; [vm_compute; reflexivity|].
  apply (proj1 (proj2 (proj2 (proj2 (states_listing_counts unit listed_rows))) "ia")).
  vm_compute. right. left.
Defined.

(** ** Date filters *)

Lemma selected_single {pyfloat : Type} (c : Violation pyfloat -> result App.sql_bool)
    (row : App.Row (pyfloat := pyfloat)) :
  App.selected [c] row = true <-> c (snd row) = Return (Some true).
Proof.
  unfold App.selected. cbn [forallb]. rewrite andb_true_r.
  destruct (c (snd row)) as [[[]|]|e]; split; done.
Qed.

(** X28. The date filters compare text, byte by byte: every row listed
    under a lower bound has a date that is not below the bound, every row
    listed under an upper bound has a date that is not above it, and a row
    without a date is listed under neither. An empty bound is no filter. *)
Theorem date_filters_compare_text (pyfloat : Type)
    (visits : App.statement -> App.Row (pyfloat := pyfloat) -> bool) (conn : Conn pyfloat)
    (search state source severity violation_type date_from date_to : option string)
    (page per_page : Z)
    (answer : App.Page (pyfloat := pyfloat)) (row : App.Row (pyfloat := pyfloat)) :
  App.list_violations visits conn search state source severity violation_type
    date_from date_to page per_page = Some (Return answer) ->
  row ∈ App.data answer ->
  (forall bound, date_from = Some bound -> truthy bound = true ->
     exists d, date (snd row) = Some d /\ String.leb bound d = true)
  /\ (forall bound, date_to = Some bound -> truthy bound = true ->
        exists d, date (snd row) = Some d /\ String.leb d bound = true)
  /\ (date_from = Some EmptyString ->
      App.conditions (pyfloat := pyfloat) search state source severity violation_type
        date_from date_to
      = App.conditions search state source severity violation_type None date_to)
  /\ (date_to = Some EmptyString ->
      App.conditions (pyfloat := pyfloat) search state source severity violation_type
        date_from date_to
      = App.conditions search state source severity violation_type date_from None).
Proof.
  intros Hanswer Hin.
  destruct (listed_rows_selected _ _ _ _ _ _ _ _ _ _ _ _ _ Hanswer Hin) as [_ Hsel].
  unfold App.conditions in Hsel.
  rewrite !selected_app, !andb_true_iff in Hsel.
  destruct Hsel as (_ & _ & _ & _ & _ & Hfrom & Hto).
  split; [|split; [|split]].
  - intros bound -> Hgiven.
    unfold App.condition, App.given in Hfrom. rewrite Hgiven in Hfrom.
    apply selected_single in Hfrom. unfold App.sql_ge in Hfrom.
    destruct (date (snd row)) as [d|]; [|discriminate].
    exists d. split; [done|]. simpl in Hfrom. congruence.
  - intros bound -> Hgiven.
    unfold App.condition, App.given in Hto. rewrite Hgiven in Hto.
    apply selected_single in Hto. unfold App.sql_le in Hto.
    destruct (date (snd row)) as [d|]; [|discriminate].
    exists d. split; [done|]. simpl in Hto. congruence.
  - intros ->. reflexivity.
  - intros ->. reflexivity.
Qed.

Lemma date_filters_compare_text_witness :
  exists answer,
    App.list_violations full_scan listed_rows None None None None None
      (Some "2023-01-01") (Some "2023-12-31") 1 50 = Some (Return answer)
    /\ map fst (App.data answer) = [0%nat]
    /\ Forall (fun row => exists d, date (snd row) = Some d
                                    /\ String.leb "2023-01-01" d = true)
         (App.data answer).
Proof.
  eexists. split; [vm_compute; reflexivity|]. split; [vm_compute; reflexivity|].
  apply Forall_forall. intros row Hin.
  eapply (proj1 (date_filters_compare_text unit full_scan listed_rows None None None
                   None None (Some "2023-01-01") (Some "2023-12-31") 1 50 _ row
                   eq_refl Hin)
            "2023-01-01" eq_refl eq_refl).
Defined.

(** X29. The read side takes the date of a facility record as it came from
    the registry. A facility that is kept and has a last-penalty date is
    stored under that raw text; when the text begins with the digit 0 or 1,
    as a date written month first does, no lower bound that begins with
    the digit 2 selects the record, whatever the year in the date, and
    every upper bound that begins with the digit 2 does. *)
Theorem facility_dates_filtered_as_text (pyfloat : Type)
    (float_of_str : string -> option pyfloat)
    (facility : gmap string string) (sic_code : string) (v : Violation pyfloat)
    (c : ascii) (rest bound : string) (rank : nat) :
  EpaEcho.facility_to_violation float_of_str facility sic_code = Some v ->
  dict_get facility "CWPDateLastPenalty" EmptyString = String c rest ->
  c = "0"%char \/ c = "1"%char ->
  date v = Some (String c rest)
  /\ App.selected
       (App.conditions None None None None None (Some (String "2" bound)) None)
       (rank, v) = false
  /\ App.selected
       (App.conditions None None None None None None (Some (String "2" bound)))
       (rank, v) = true.
Proof.
  intros Hkept Hraw Hc.
  destruct (facility_kept _ _ _ _ Hkept) as (_ & Hdate & _).
  cbv zeta in Hdate. rewrite Hraw in Hdate.
  change (truthy (String c rest)) with true in Hdate. cbv iota in Hdate.
  split; [done|].
  unfold App.conditions, App.condition, App.given.
  change (truthy (String "2" bound)) with true. cbv iota.
  cbn [app]. unfold App.selected. cbn [forallb snd].
  unfold App.sql_ge, App.sql_le. rewrite Hdate. cbn [fmap option_fmap option_map].
  unfold String.leb. cbn [String.compare].
  destruct Hc as [-> | ->]; split; reflexivity.
Qed.

Lemma facility_dates_filtered_as_text_witness :
  exists v,
    EpaEcho.facility_to_violation no_float penalised_facility "0211" = Some v
    /\ date v = Some "06/15/2023"
    /\ App.selected (App.conditions None None None None None (Some "2020-01-01") None)
         (0%nat, v) = false
    /\ App.selected (App.conditions None None None None None None (Some "2020-01-01"))
         (0%nat, v) = true.
Proof.
  eexists. split; [vm_compute; reflexivity|].
  eapply (facility_dates_filtered_as_text _ no_float penalised_facility "0211" _
            "0" "6/15/2023" "020-01-01" 0 eq_refl).
  - vm_compute. reflexivity.
  - by left.
Defined.
